(** * UIT Hardware Specialist: the dataset scripts

    A shallow embedding of [src/utils/merge_datasets.py] and
    [src/utils/check_missing.py], and the properties of the two scripts.

    Text.  A Python [str] is modelled as a Rocq [string]; a character is a
    code point below 256 (ASCII and Latin-1).  [lower], [strip], [int] and
    the regular expression of [normalize_name] are given their Python
    meaning on that range.  [normalize_name] is modelled a second time, in
    the module [Unicode], on text of any code points, with [str.lower] as a
    parameter.

    Cells.  [csv.DictReader] hands out one dict per row: a cell is a [str],
    or [None] when the row is shorter than the header; the cells a row has
    beyond the header are collected in a list under the key [None].

    Files.  The lexing of delimited text is not modelled: a readable file is
    the list of rows [csv.reader] yields for it, and a written file is the
    list of rows handed to [csv.writer]. *)

From Stdlib Require Import String Ascii List ZArith NArith Lia Bool.
From Stdlib Require Import DecimalString Floats.
Import ListNotations.

Open Scope string_scope.

(* ================================================================= *)
(** ** Python text primitives *)

Module Py.

Definition code (c : ascii) : N := N_of_ascii c.

Definition in_range (lo hi : N) (c : ascii) : bool :=
  ((lo <=? code c) && (code c <=? hi))%N.

Definition is_digit (c : ascii) : bool := in_range 48 57 c.
Definition is_ascii_upper (c : ascii) : bool := in_range 65 90 c.
Definition is_ascii_lower (c : ascii) : bool := in_range 97 122 c.

(** The class [[a-zA-Z0-9]] of the regular expression. *)
Definition is_alnum (c : ascii) : bool :=
  is_ascii_lower c || is_ascii_upper c || is_digit c.

(** The characters [normalize_name] may return: [[a-z0-9]]. *)
Definition is_lower_alnum (c : ascii) : bool :=
  is_ascii_lower c || is_digit c.

(** [str.lower] on one character: [A-Z], and the Latin-1 capitals
    U+00C0..U+00DE except the multiplication sign U+00D7. *)
Definition lower_char (c : ascii) : ascii :=
  if is_ascii_upper c || (in_range 192 222 c && negb (code c =? 215)%N)
  then ascii_of_N (code c + 32)
  else c.

(** [str.isspace] on one character: what [str.strip] removes. *)
Definition is_space (c : ascii) : bool :=
  in_range 9 13 c || in_range 28 32 c || (code c =? 133)%N || (code c =? 160)%N.

Fixpoint str_map (f : ascii -> ascii) (s : string) : string :=
  match s with
  | EmptyString => EmptyString
  | String c s' => String (f c) (str_map f s')
  end.

Fixpoint str_filter (p : ascii -> bool) (s : string) : string :=
  match s with
  | EmptyString => EmptyString
  | String c s' => if p c then String c (str_filter p s') else str_filter p s'
  end.

Fixpoint str_forall (p : ascii -> bool) (s : string) : bool :=
  match s with
  | EmptyString => true
  | String c s' => p c && str_forall p s'
  end.

(** [s.lower()] *)
Definition lower (s : string) : string := str_map lower_char s.

(** [bool(s)] for a [str]. *)
Definition nonempty (s : string) : bool :=
  match s with EmptyString => false | String _ _ => true end.

(** [t.startswith(p)] *)
Fixpoint startswith (p t : string) : bool :=
  match p, t with
  | EmptyString, _ => true
  | String _ _, EmptyString => false
  | String a p', String b t' => Ascii.eqb a b && startswith p' t'
  end.

(** [needle in hay] for two [str]. *)
Fixpoint contains (needle hay : string) : bool :=
  startswith needle hay ||
  match hay with
  | EmptyString => false
  | String _ hay' => contains needle hay'
  end.

(** [x in [s1, s2, ...]] for a [str] and a list of [str]. *)
Definition mem (x : string) (l : list string) : bool :=
  existsb (String.eqb x) l.

(** The string without its leading characters in [p]. *)
Fixpoint lstrip (p : ascii -> bool) (s : string) : string :=
  match s with
  | EmptyString => EmptyString
  | String c s' => if p c then lstrip p s' else s
  end.

(** The string without its trailing characters in [p]. *)
Fixpoint rstrip (p : ascii -> bool) (s : string) : string :=
  match s with
  | EmptyString => EmptyString
  | String c s' =>
      match rstrip p s' with
      | EmptyString => if p c then EmptyString else String c EmptyString
      | t => String c t
      end
  end.

(** [s.strip()] *)
Definition strip (s : string) : string := rstrip is_space (lstrip is_space s).

(** The white space [int] skips around a literal: the ASCII white space of C,
    and U+0085 and U+00A0; unlike [strip], not U+001C..U+001F. *)
Definition is_int_space (c : ascii) : bool :=
  in_range 9 13 c || (code c =? 32)%N || (code c =? 133)%N || (code c =? 160)%N.

Definition digit_value (c : ascii) : Z := Z.of_N (code c) - 48.

(** The digits of [int(s)] after the sign: digits with single underscores
    between them.  [prev] is the character before, [acc] the value and
    [n] the number of digits read so far. *)
Fixpoint int_digits (s : string) (prev : option ascii) (acc : Z) (n : nat)
  : option (Z * nat) :=
  match s with
  | EmptyString =>
      match prev with
      | None => None
      | Some p => if Ascii.eqb p "_" then None else Some (acc, n)
      end
  | String c s' =>
      if Ascii.eqb c "_" then
        match prev with
        | None => None
        | Some p => if Ascii.eqb p "_" then None else int_digits s' (Some c) acc n
        end
      else if is_digit c then
        int_digits s' (Some c) (10 * acc + digit_value c) (S n)
      else None
  end.

(** The interpreter's default bound on the digits of a decimal literal
    ([sys.get_int_max_str_digits()]): a longer one is a [ValueError]. *)
Definition max_str_digits : nat := 4300.

(** [int(s)] for a [str]: [None] stands for [ValueError]. *)
Definition int (s : string) : option Z :=
  let t := rstrip is_int_space (lstrip is_int_space s) in
  let '(neg, body) :=
    match t with
    | String "-" r => (true, r)
    | String "+" r => (false, r)
    | _ => (false, t)
    end in
  match int_digits body None 0 0 with
  | Some (v, n) =>
      if Nat.ltb max_str_digits n then None
      else Some (if neg then (- v)%Z else v)
  | None => None
  end.

(** [str(n)] for a natural number. *)
Definition str_of_nat (n : nat) : string :=
  NilZero.string_of_uint (Nat.to_uint n).

End Py.

(* ================================================================= *)
(** ** merge_datasets.py: normalize_name *)

(** [re.sub(r'[^a-zA-Z0-9]', '', t)] *)
Definition re_sub_non_alnum (t : string) : string :=
  Py.str_filter Py.is_alnum t.

(** [normalize_name(name)]; [None] is the Python [None]. *)
Definition normalize_name (name : option string) : string :=
  match name with
  | None => ""
  | Some s => if Py.nonempty s then re_sub_non_alnum (Py.lower s) else ""
  end.

(* ================================================================= *)
(** ** merge_datasets.py: normalize_name on any text *)

Module Unicode.

(** A [str] of any characters: the list of its code points. *)
Definition text := list N.

Definition in_range (lo hi c : N) : bool := ((lo <=? c) && (c <=? hi))%N.

Definition is_digit (c : N) : bool := in_range 48 57 c.
Definition is_ascii_upper (c : N) : bool := in_range 65 90 c.
Definition is_ascii_lower (c : N) : bool := in_range 97 122 c.

(** The class [[a-zA-Z0-9]] of the regular expression. *)
Definition is_alnum (c : N) : bool :=
  is_ascii_lower c || is_ascii_upper c || is_digit c.

(** The class [[a-z0-9]]. *)
Definition is_lower_alnum (c : N) : bool := is_ascii_lower c || is_digit c.

(** [re.sub(r'[^a-zA-Z0-9]', '', t)] *)
Definition re_sub_non_alnum (t : text) : text := filter is_alnum t.

(** [normalize_name(name)]; [None] is the Python [None].  [lower] stands for
    [str.lower], whose table of cases is Unicode's and not the
    repository's. *)
Definition normalize_name (lower : text -> text) (name : option text) : text :=
  match name with
  | None => []
  | Some [] => []
  | Some s => re_sub_non_alnum (lower s)
  end.

(** Two facts of [str.lower]: no character of its result is a letter of
    [A-Z], and a text of [[a-z0-9]] is its own lowering. *)
Definition never_ascii_upper (lower : text -> text) : Prop :=
  forall (s : text) (c : N), In c (lower s) -> is_ascii_upper c = false.

Definition fixes_lower_alnum (lower : text -> text) : Prop :=
  forall s : text, forallb is_lower_alnum s = true -> lower s = s.

(** [str.lower] on the characters of ASCII and Latin-1, on the Kelvin sign
    U+212A (to [k]) and on the dotted capital I U+0130 (to [i] and the
    combining dot U+0307); any other character is left as it is. *)
Definition lower_char (c : N) : text :=
  if is_ascii_upper c || (in_range 192 222 c && negb (c =? 215)%N) then [(c + 32)%N]
  else if (c =? 8490)%N then [107%N]
  else if (c =? 304)%N then [105%N; 775%N]
  else [c].

Definition lower_sample (s : text) : text := flat_map lower_char s.

(** The code points of a text of the narrow model. *)
Definition codes (s : string) : text := map N_of_ascii (list_ascii_of_string s).

End Unicode.

(* ================================================================= *)
(** ** Rows, exceptions *)

(** A cell of a row dict: a [str], or [None]. *)
Definition cell := option string.

(** A Python dict with [str] keys, in insertion order, keys unique. *)
Definition dict := list (string * cell).

(** [d.get(k)]: [None] when [k] is not a key of [d]. *)
Fixpoint dict_get (d : dict) (k : string) : option cell :=
  match d with
  | [] => None
  | (k', v) :: d' => if String.eqb k' k then Some v else dict_get d' k
  end.

(** [d[k] = v]: an existing key keeps its place, a new one goes last. *)
Fixpoint dict_set (d : dict) (k : string) (v : cell) : dict :=
  match d with
  | [] => [(k, v)]
  | (k', v') :: d' =>
      if String.eqb k' k then (k', v) :: d' else (k', v') :: dict_set d' k v
  end.

(** A row as [csv.DictReader] yields it: the cells under the header's names,
    and under the key [None] the cells beyond the header, when there are
    some. *)
Record row : Type := mkRow {
  fields : dict;
  restkey : option (list string)
}.

Definition get (r : row) (k : string) : option cell := dict_get (fields r) k.

Definition set (r : row) (k : string) (v : cell) : row :=
  mkRow (dict_set (fields r) k v) (restkey r).

(** [row.keys()]: [None] is the key of the surplus cells. *)
Definition keys (r : row) : list (option string) :=
  (map (fun kv => Some (fst kv)) (fields r) ++
   match restkey r with Some _ => [None] | None => [] end)%list.

Inductive exn : Type :=
| KeyError (k : option string)
| IndexError
| AttributeError
| TypeError
| ValueError
| FileNotFoundError
| OtherError (msg : string).

Inductive result (A : Type) : Type :=
| Ok (a : A)
| Raise (e : exn).
Arguments Ok {A} a.
Arguments Raise {A} e.

Definition bind {A B : Type} (m : result A) (f : A -> result B) : result B :=
  match m with
  | Ok a => f a
  | Raise e => Raise e
  end.

Notation "x <- m ;; k" := (bind m (fun x => k))
  (at level 61, m at next level, right associativity).

(** [bool(row.get(k))] *)
Definition truthy (v : option cell) : bool :=
  match v with
  | Some (Some s) => Py.nonempty s
  | _ => false
  end.

(** [row.get(k, '').lower()]: the default serves a missing key only; a
    key whose cell is [None] gives [None], which has no [lower]. *)
Definition get_lower (r : row) (k : string) : result string :=
  match get r k with
  | None => Ok (Py.lower "")
  | Some None => Raise AttributeError
  | Some (Some s) => Ok (Py.lower s)
  end.

(* ================================================================= *)
(** ** merge_datasets.py: get_inferred_data *)

Module Inferred.
Record t : Type := Build {
  Major : string;
  Activities : string;
  ProgramList : string
}.
End Inferred.

Definition high_spec : Inferred.t :=
  Inferred.Build
    "Knowledge Engineering"
    "Programming/Coding (e.g., VS Code, IntelliJ, Python), Running Virtual Machines (e.g., VMware, VirtualBox), CAD/3D Modeling (e.g., AutoCAD, Blender), Graphic Design/Video Editing"
    "TensorFlow, PyTorch, Unity, Unreal Engine".

Definition mid_spec : Inferred.t :=
  Inferred.Build
    "Software Engineering"
    "Programming/Coding (e.g., VS Code, IntelliJ, Python), Web Browsing and Research, Office/Documentation (e.g., Word, Excel, Google Docs), Database Management"
    "VS Code, Git, Postman, XAMPP".

Definition low_spec : Inferred.t :=
  Inferred.Build
    "No Major Yet"
    "Web Browsing and Research, Office/Documentation (e.g., Word, Excel, Google Docs)"
    "Chrome, Word, Excel".

(** [int(row.get('ram(GB)', 0))] under [try ... except ValueError: ram = 0].
    [int(None)] is a [TypeError], which the handler does not catch. *)
Definition ram_of (r : row) : result Z :=
  match get r "ram(GB)" with
  | None => Ok 0%Z
  | Some None => Raise TypeError
  | Some (Some s) =>
      match Py.int s with
      | Some n => Ok n
      | None => Ok 0%Z
      end
  end.

Definition has_gpu_keyword (gpu : string) : bool :=
  Py.contains "rtx" gpu || Py.contains "gtx" gpu || Py.contains "radeon rx" gpu.

Definition get_inferred_data (r : row) : result Inferred.t :=
  ram <- ram_of r ;;
  gpu <- get_lower r "graphics" ;;
  cpu <- get_lower r "processor_name" ;;
  let is_high_spec := false in
  let is_high_spec := if (16 <=? ram)%Z then true else is_high_spec in
  let is_high_spec := if has_gpu_keyword gpu then true else is_high_spec in
  let is_mid_spec := (8 <=? ram)%Z in
  Ok (if is_high_spec then high_spec
      else if is_mid_spec then mid_spec
      else low_spec).

(* ================================================================= *)
(** ** merge_datasets.py: the body of the loop over the catalog *)

Module Survey.
(** An entry of [survey_data]. *)
Record t : Type := Build {
  model_normalized : string;
  Major : cell;
  Activities : cell;
  ProgramList : cell
}.
End Survey.

Definition sentinels : list string := ["Missing"; "NULL"; "null"; "None"; ""].

(** [not row.get(k) or row[k] in ['Missing', 'NULL', 'null', 'None', '']];
    the right operand is evaluated on a truthy cell only. *)
Definition needs_default (r : row) (k : string) : bool :=
  negb (truthy (get r k)) ||
  match get r k with
  | Some (Some s) => Py.mem s sentinels
  | _ => false
  end.

Definition impute_graphics (r : row) : result row :=
  if needs_default r "graphics" then
    proc <- get_lower r "processor_name" ;;
    if Py.contains "intel" proc then
      Ok (set r "graphics" (Some "Intel Integrated Graphics"))
    else if Py.contains "amd" proc || Py.contains "ryzen" proc then
      Ok (set r "graphics" (Some "AMD Radeon Graphics"))
    else
      Ok (set r "graphics" (Some "Integrated Graphics"))
  else Ok r.

Definition impute_default (k v : string) (r : row) : row :=
  if needs_default r k then set r k (Some v) else r.

(** The test of the matching loop on one survey entry. *)
Definition matches (laptop_model_norm : string) (survey_row : Survey.t) : bool :=
  Py.nonempty (Survey.model_normalized survey_row) &&
  (Py.contains (Survey.model_normalized survey_row) laptop_model_norm ||
   Py.contains laptop_model_norm (Survey.model_normalized survey_row)).

(** [match = None; for survey_row in survey_data: if ...: match = survey_row; break] *)
Fixpoint find_match (survey_data : list Survey.t) (laptop_model_norm : string)
  : option Survey.t :=
  match survey_data with
  | [] => None
  | survey_row :: rest =>
      if matches laptop_model_norm survey_row then Some survey_row
      else find_match rest laptop_model_norm
  end.

(** [not row['ProgramList'] or row['ProgramList'].lower() in ['none', 'nan', '']] *)
Definition program_list_missing (v : cell) : bool :=
  match v with
  | None => true
  | Some s => negb (Py.nonempty s) || Py.mem (Py.lower s) ["none"; "nan"; ""]
  end.

(** The [if match: ... else: ...] of the loop. *)
Definition merge_fields (r : row) (match_ : option Survey.t) : result row :=
  match match_ with
  | Some m =>
      let r := set r "Major" (Survey.Major m) in
      let r := set r "Activities" (Survey.Activities m) in
      let r := set r "ProgramList" (Survey.ProgramList m) in
      if program_list_missing (Survey.ProgramList m) then
        inferred <- get_inferred_data r ;;
        Ok (set r "ProgramList" (Some (Inferred.ProgramList inferred)))
      else Ok r
  | None =>
      inferred <- get_inferred_data r ;;
      let r := set r "Major" (Some (Inferred.Major inferred)) in
      let r := set r "Activities" (Some (Inferred.Activities inferred)) in
      let r := set r "ProgramList" (Some (Inferred.ProgramList inferred)) in
      Ok r
  end.

(** [row['model_name']] *)
Definition model_name (r : row) : result cell :=
  match get r "model_name" with
  | None => Raise (KeyError (Some "model_name"))
  | Some v => Ok v
  end.

(** One turn of [for row in reader] up to [merged_rows.append(row)]. *)
Definition process_row (survey_data : list Survey.t) (r : row) : result row :=
  name <- model_name r ;;
  let laptop_model_norm := normalize_name name in
  r <- impute_graphics r ;;
  let r := impute_default "screen_size(inches)" "15.6" r in
  let r := impute_default "resolution (pixels)" "1920 x 1080" r in
  merge_fields r (find_match survey_data laptop_model_norm).

(* ================================================================= *)
(** ** csv.DictReader, csv.DictWriter and the files *)

(** [dict(zip(fieldnames, cells))] *)
Definition zip_dict (fieldnames cells : list string) : dict :=
  fold_left (fun d kv => dict_set d (fst kv) (Some (snd kv)))
            (combine fieldnames cells) [].

(** [DictReader.__next__] on one non-empty row of the reader, with the
    defaults [restkey=None] and [restval=None]. *)
Definition dict_reader_row (fieldnames cells : list string) : row :=
  let d := zip_dict fieldnames cells in
  let lf := length fieldnames in
  let lr := length cells in
  if Nat.ltb lf lr then mkRow d (Some (skipn lf cells))
  else if Nat.ltb lr lf then
    mkRow (fold_left (fun d k => dict_set d k None) (skipn lr fieldnames) d) None
  else mkRow d None.

Definition is_blank (cells : list string) : bool :=
  match cells with [] => true | _ :: _ => false end.

(** [reader.fieldnames]: the first row of the file, [None] in an empty file. *)
Definition fieldnames_of (lines : list (list string)) : option (list string) :=
  match lines with
  | [] => None
  | header :: _ => Some header
  end.

(** The rows after the header that are not blank. *)
Definition data_lines (body : list (list string)) : list (list string) :=
  filter (fun cells => negb (is_blank cells)) body.

(** The rows [csv.DictReader(f)] yields; blank rows are skipped. *)
Definition dict_reader (lines : list (list string)) : list row :=
  match lines with
  | [] => []
  | header :: body => map (dict_reader_row header) (data_lines body)
  end.

(** A file that exists: one that cannot be opened or decoded (reading it
    raises an exception with message [msg]), or its rows. *)
Inductive file : Type :=
| Unreadable (msg : string)
| Readable (lines : list (list string)).

Definition filesystem := string -> option file.

(** [os.path.exists(path)] *)
Definition path_exists (fs : filesystem) (path : string) : bool :=
  match fs path with Some _ => true | None => false end.

(** [open(path, mode='r')] and the reading of the whole file. *)
Definition read_file (fs : filesystem) (path : string) : result (list (list string)) :=
  match fs path with
  | None => Raise FileNotFoundError
  | Some (Unreadable msg) => Raise (OtherError msg)
  | Some (Readable lines) => Ok lines
  end.

Definition write_file (fs : filesystem) (path : string) (lines : list (list string))
  : filesystem :=
  fun p => if String.eqb p path then Some (Readable lines) else fs p.

Fixpoint mapM {A B : Type} (f : A -> result B) (l : list A) : result (list B) :=
  match l with
  | [] => Ok []
  | a :: l' => b <- f a ;; bs <- mapM f l' ;; Ok (b :: bs)
  end.

(** [[k for k in row.keys() if p(k.lower())]]: the key [None] has no [lower]. *)
Fixpoint keys_where (p : string -> bool) (ks : list (option string))
  : result (list string) :=
  match ks with
  | [] => Ok []
  | None :: _ => Raise AttributeError
  | Some k :: ks' =>
      rest <- keys_where p ks' ;;
      Ok (if p (Py.lower k) then k :: rest else rest)
  end.

(** [l[0]] *)
Definition first {A : Type} (l : list A) : result A :=
  match l with
  | [] => Raise IndexError
  | a :: _ => Ok a
  end.

(** [row[k]] *)
Definition item (r : row) (k : string) : result cell :=
  match get r k with
  | None => Raise (KeyError (Some k))
  | Some v => Ok v
  end.

Definition is_model_header (k : string) : bool := Py.contains "laptop model" k.
Definition is_major_header (k : string) : bool := Py.contains "major" k.
Definition is_activity_header (k : string) : bool := Py.contains "activities" k.
Definition is_program_list_header (k : string) : bool :=
  Py.contains "specialized software" k && Py.contains "list" k.

(** One turn of the loop that reads the survey. *)
Definition survey_entry (r : row) : result Survey.t :=
  model_key <- (l <- keys_where is_model_header (keys r) ;; first l) ;;
  major_key <- (l <- keys_where is_major_header (keys r) ;; first l) ;;
  activity_key <- (l <- keys_where is_activity_header (keys r) ;; first l) ;;
  program_list_key <- (l <- keys_where is_program_list_header (keys r) ;; first l) ;;
  model <- item r model_key ;;
  major <- item r major_key ;;
  activities <- item r activity_key ;;
  program_list <- item r program_list_key ;;
  Ok (Survey.Build (normalize_name model) major activities program_list).

(** [DictWriter._dict_to_list] with [extrasaction='raise'] and [restval='']:
    a key outside [fieldnames] is a [ValueError]; a [None] cell is written
    as the empty field. *)
Definition dict_to_list (fieldnames : list string) (r : row) : result (list string) :=
  if existsb (fun k => match k with
                       | None => true
                       | Some k => negb (Py.mem k fieldnames)
                       end) (keys r)
  then Raise ValueError
  else Ok (map (fun k => match get r k with
                         | Some (Some s) => s
                         | _ => ""
                         end) fieldnames).

(** [writer.writerows(rows)]: the rows reach the file one by one, so the
    rows before a failing one are written. *)
Fixpoint writerows (fieldnames : list string) (rows : list row)
                   (written : list (list string))
  : list (list string) * result unit :=
  match rows with
  | [] => (written, Ok tt)
  | r :: rows' =>
      match dict_to_list fieldnames r with
      | Ok cells => writerows fieldnames rows' (written ++ [cells])%list
      | Raise e => (written, Raise e)
      end
  end.

(* ================================================================= *)
(** ** merge_datasets.py: main *)

Definition laptop_file : string := "dataset/laptop.csv".
Definition survey_file : string :=
  "dataset/UIT Student Laptop Usage Survey (Responses) - Form responses 1.csv".
Definition output_file : string := "dataset/merged_laptop_data_cleaned.csv".

(** What a run leaves: how [main] ended, what it printed, the files. *)
Record run : Type := mkRun {
  outcome : result unit;
  stdout : list string;
  files : filesystem
}.

Definition read_survey (fs : filesystem) : result (list Survey.t) :=
  lines <- read_file fs survey_file ;;
  mapM survey_entry (dict_reader lines).

Definition read_and_merge (fs : filesystem) (survey_data : list Survey.t)
  : result (list string * list row) :=
  lines <- read_file fs laptop_file ;;
  fieldnames <- match fieldnames_of lines with
                | None => Raise TypeError
                | Some header => Ok (header ++ ["Major"; "Activities"; "ProgramList"])%list
                end ;;
  merged_rows <- mapM (process_row survey_data) (dict_reader lines) ;;
  Ok (fieldnames, merged_rows).

Definition main (fs : filesystem) : run :=
  if negb (path_exists fs laptop_file) then
    mkRun (Ok tt) ["Error: " ++ laptop_file ++ " not found."] fs
  else if negb (path_exists fs survey_file) then
    mkRun (Ok tt) ["Error: " ++ survey_file ++ " not found."] fs
  else
    match read_survey fs with
    | Raise e => mkRun (Raise e) [] fs
    | Ok survey_data =>
        match read_and_merge fs survey_data with
        | Raise e => mkRun (Raise e) [] fs
        | Ok (fieldnames, merged_rows) =>
            let '(written, res) := writerows fieldnames merged_rows [fieldnames] in
            let fs' := write_file fs output_file written in
            match res with
            | Ok _ => mkRun (Ok tt) ["Successfully merged data to " ++ output_file] fs'
            | Raise e => mkRun (Raise e) [] fs'
            end
        end
    end.

(* ================================================================= *)
(** ** check_missing.py: analyze_missing *)

(** [count / total_rows * 100] in binary64.  Row counts are below 2^53,
    where an [int] converts to its [float] exactly. *)
Definition float_of_nat (n : nat) : float :=
  PrimFloat.of_uint63 (Uint63.of_Z (Z.of_nat n)).

Definition percentage (count total_rows : nat) : float :=
  (float_of_nat count / float_of_nat total_rows * float_of_nat 100)%float.

(** The nearest integer to [num / den], ties to even ([0 <= num], [0 < den]). *)
Definition round_half_even (num den : Z) : Z :=
  let q := (num / den)%Z in
  let r := (num mod den)%Z in
  match (2 * r ?= den)%Z with
  | Lt => q
  | Gt => (q + 1)%Z
  | Eq => if Z.even q then q else (q + 1)%Z
  end.

Definition str_of_Z (z : Z) : string :=
  NilZero.string_of_uint (N.to_uint (Z.to_N z)).

Definition two_digits (z : Z) : string :=
  if (z <? 10)%Z then "0" ++ str_of_Z z else str_of_Z z.

(** [f"{x:.2f}"]: the decimal with two places nearest to the exact value of
    the float, ties to even. *)
Definition format_2f (x : float) : string :=
  match Prim2SF x with
  | S754_zero s => if s then "-0.00" else "0.00"
  | S754_infinity s => if s then "-inf" else "inf"
  | S754_nan => "nan"
  | S754_finite s m e =>
      let hundredths :=
        match e with
        | Zneg p => round_half_even (Z.pos m * 100) (2 ^ Z.pos p)
        | _ => (Z.pos m * 100 * 2 ^ e)%Z
        end in
      (if s then "-" else "") ++
      str_of_Z (hundredths / 100) ++ "." ++ two_digits (hundredths mod 100)
  end.

(** The values of [row.items()]. *)
Inductive value : Type :=
| VNone
| VStr (s : string)
| VList (l : list string).

(** [row.items()] *)
Definition items (r : row) : list (option string * value) :=
  (map (fun kv => (Some (fst kv),
                   match snd kv with None => VNone | Some s => VStr s end))
       (fields r) ++
   match restkey r with Some l => [(None, VList l)] | None => [] end)%list.

Definition missing_keywords : list string := ["nan"; "none"; "null"; "missing"; ""].

(** [value is None or str(value).strip().lower() in missing_keywords].
    [str] of a list starts with a bracket, and so is none of the keywords. *)
Definition is_missing (v : value) : bool :=
  match v with
  | VNone => true
  | VStr s => Py.mem (Py.lower (Py.strip s)) missing_keywords
  | VList _ => false
  end.

Definition key_eqb (a b : option string) : bool :=
  match a, b with
  | None, None => true
  | Some x, Some y => String.eqb x y
  | _, _ => false
  end.

(** [missing_counts[key] += 1] *)
Fixpoint increment (counts : list (option string * nat)) (key : option string)
  : result (list (option string * nat)) :=
  match counts with
  | [] => Raise (KeyError key)
  | (k, n) :: counts' =>
      if key_eqb k key then Ok ((k, S n) :: counts')
      else rest <- increment counts' key ;; Ok ((k, n) :: rest)
  end.

(** [for key, value in row.items(): ...] *)
Fixpoint count_items (its : list (option string * value))
                     (counts : list (option string * nat))
  : result (list (option string * nat)) :=
  match its with
  | [] => Ok counts
  | (key, v) :: its' =>
      if is_missing v then
        counts <- increment counts key ;; count_items its' counts
      else count_items its' counts
  end.

(** [for row in data: ...] *)
Fixpoint count_rows (data : list row) (counts : list (option string * nat))
  : result (list (option string * nat)) :=
  match data with
  | [] => Ok counts
  | r :: data' => counts <- count_items (items r) counts ;; count_rows data' counts
  end.

(** [f"{key}"] *)
Definition str_of_key (key : option string) : string :=
  match key with None => "None" | Some k => k end.

(** A line of the report. *)
Definition report_line (total_rows : nat) (kc : option string * nat) : string :=
  let '(key, count) := kc in
  if Nat.ltb 0 count then
    str_of_key key ++ ": " ++ Py.str_of_nat count ++
    " (" ++ format_2f (percentage count total_rows) ++ "%)"
  else str_of_key key ++ ": 0".

Definition newline : string := String (ascii_of_nat 10) "".

(** [str(e)]; the quoting of a key follows [repr] for a key without quotes
    or escapes. *)
Definition str_of_exn (e : exn) : string :=
  match e with
  | KeyError None => "None"
  | KeyError (Some k) => "'" ++ k ++ "'"
  | IndexError => "list index out of range"
  | AttributeError => "'NoneType' object has no attribute 'lower'"
  | TypeError => "int() argument must be a string, a bytes-like object or a real number, not 'NoneType'"
  | ValueError => "dict contains fields not in fieldnames"
  | FileNotFoundError => "No such file or directory"
  | OtherError msg => msg
  end.

(** The [try] block: what was printed, and how the block ended. *)
Definition analyze_body (fs : filesystem) (file_path : string)
  : list string * result unit :=
  match read_file fs file_path with
  | Raise e => ([], Raise e)
  | Ok lines =>
      let data := dict_reader lines in
      match data with
      | [] => (["No data found."], Ok tt)
      | first_row :: _ =>
          let total_rows := length data in
          let out := ["Total Rows: " ++ Py.str_of_nat total_rows] in
          let missing_counts := map (fun k => (k, 0)) (keys first_row) in
          match count_rows data missing_counts with
          | Raise e => (out, Raise e)
          | Ok missing_counts =>
              ((out ++ [(newline ++ "Missing Values per Column:")%string] ++
                map (report_line total_rows) missing_counts)%list, Ok tt)
          end
      end
  end.

Definition analyze_missing (fs : filesystem) (file_path : string) : run :=
  let out := ["Analyzing " ++ file_path ++ "..."] in
  let '(printed, res) := analyze_body fs file_path in
  match res with
  | Ok _ => mkRun (Ok tt) (out ++ printed)%list fs
  | Raise FileNotFoundError =>
      mkRun (Ok tt) (out ++ printed ++ [("File not found: " ++ file_path)%string])%list fs
  | Raise e =>
      mkRun (Ok tt) (out ++ printed ++ [("Error: " ++ str_of_exn e)%string])%list fs
  end.

(* ================================================================= *)
(** * Properties *)

(** ** Text *)

Section Text.

Lemma is_alnum_lower_char (c : ascii) :
  Py.is_alnum (Py.lower_char c) = Py.is_alnum c.
Proof. destruct c as [[] [] [] [] [] [] [] []]; reflexivity. Qed.

Lemma lower_char_of_alnum (c : ascii) :
  Py.is_alnum c = true -> Py.is_lower_alnum (Py.lower_char c) = true.
Proof. destruct c as [[] [] [] [] [] [] [] []]; intros H; try reflexivity; discriminate H. Qed.

Lemma lower_char_fixes_lower_alnum (c : ascii) :
  Py.is_lower_alnum c = true -> Py.lower_char c = c /\ Py.is_alnum c = true.
Proof.
  destruct c as [[] [] [] [] [] [] [] []]; intros H;
    try discriminate H; split; reflexivity.
Qed.

(** Removing the other characters and lowering commute. *)
Lemma filter_alnum_lower (s : string) :
  Py.str_filter Py.is_alnum (Py.lower s) = Py.lower (Py.str_filter Py.is_alnum s).
Proof.
  unfold Py.lower.
  induction s as [|c s IH]; simpl; [reflexivity|].
  rewrite is_alnum_lower_char.
  destruct (Py.is_alnum c); simpl; rewrite IH; reflexivity.
Qed.

Lemma lower_filter_alnum_is_lower_alnum (s : string) :
  Py.str_forall Py.is_lower_alnum (Py.lower (Py.str_filter Py.is_alnum s)) = true.
Proof.
  unfold Py.lower.
  induction s as [|c s IH]; simpl; [reflexivity|].
  destruct (Py.is_alnum c) eqn:E; simpl; [|exact IH].
  rewrite (lower_char_of_alnum c E), IH. reflexivity.
Qed.

(** A string of [[a-z0-9]] is left as it is by [lower] and by the filter. *)
Lemma lower_alnum_fixed (s : string) :
  Py.str_forall Py.is_lower_alnum s = true ->
  Py.str_filter Py.is_alnum (Py.lower s) = s.
Proof.
  unfold Py.lower.
  induction s as [|c s IH]; simpl; [reflexivity|].
  intros H. apply andb_true_iff in H. destruct H as [Hc Hs].
  destruct (lower_char_fixes_lower_alnum c Hc) as [-> ->].
  rewrite (IH Hs). reflexivity.
Qed.

Lemma startswith_iff (p t : string) :
  Py.startswith p t = true <-> exists post, t = p ++ post.
Proof.
  revert t. induction p as [|a p IH]; intros t; simpl.
  - split; [intros _; exists t; reflexivity | reflexivity].
  - destruct t as [|b t].
    + split; [discriminate | intros [post H]; discriminate H].
    + rewrite andb_true_iff, Ascii.eqb_eq, IH. split.
      * intros [-> [post ->]]. exists post. reflexivity.
      * intros [post H]. injection H as -> ->. split; [reflexivity | exists post; reflexivity].
Qed.

(** [a in b]: [b] is [a] with something before and something after. *)
Definition substring (a b : string) : Prop :=
  exists pre post, b = pre ++ a ++ post.

Lemma contains_iff (a b : string) :
  Py.contains a b = true <-> substring a b.
Proof.
  unfold substring. induction b as [|c b IH].
  - simpl. rewrite orb_false_r, startswith_iff. split.
    + intros [post H]. exists "", post. exact H.
    + intros [pre [post H]]. destruct pre; [exists post; exact H | discriminate H].
  - cbn [Py.contains]. rewrite orb_true_iff, startswith_iff, IH. split.
    + intros [[post H] | [pre [post H]]].
      * exists "", post. exact H.
      * exists (String c pre), post. simpl. rewrite H. reflexivity.
    + intros [pre [post H]]. destruct pre as [|x pre].
      * left. exists post. exact H.
      * right. simpl in H. injection H as _ H. exists pre, post. exact H.
Qed.

Lemma contains_empty (b : string) : Py.contains "" b = true.
Proof. apply contains_iff. exists "", b. reflexivity. Qed.

Lemma nonempty_iff (s : string) : Py.nonempty s = true <-> s <> "".
Proof. destruct s; simpl; split; congruence. Qed.

End Text.

(** ** normalize_name *)

Lemma unicode_lower_alnum_is_alnum (c : N) :
  Unicode.is_lower_alnum c = true -> Unicode.is_alnum c = true.
Proof.
  unfold Unicode.is_lower_alnum, Unicode.is_alnum. intros H.
  apply orb_true_iff in H. destruct H as [H | H]; rewrite H;
    [reflexivity | apply orb_true_r].
Qed.

Lemma unicode_alnum_cases (c : N) :
  Unicode.is_alnum c = true ->
  Unicode.is_ascii_upper c = false -> Unicode.is_lower_alnum c = true.
Proof.
  unfold Unicode.is_alnum, Unicode.is_lower_alnum. intros H U. rewrite U in H.
  rewrite orb_false_r in H. exact H.
Qed.

Lemma unicode_filter_fixed (s : Unicode.text) :
  forallb Unicode.is_lower_alnum s = true ->
  filter Unicode.is_alnum s = s /\ filter Unicode.is_lower_alnum s = s.
Proof.
  induction s as [|c s IH]; simpl; [split; reflexivity|].
  intros H. apply andb_true_iff in H. destruct H as [Hc Hs].
  rewrite Hc, (unicode_lower_alnum_is_alnum c Hc).
  destruct (IH Hs) as [-> ->]. split; reflexivity.
Qed.

(** After a lowering that leaves no letter of [A-Z], the two classes keep
    the same characters. *)
Lemma unicode_filter_lowered (lower : Unicode.text -> Unicode.text) (s : Unicode.text) :
  Unicode.never_ascii_upper lower ->
  filter Unicode.is_alnum (lower s) = filter Unicode.is_lower_alnum (lower s) /\
  forallb Unicode.is_lower_alnum (filter Unicode.is_alnum (lower s)) = true.
Proof.
  intros H. specialize (H s). revert H.
  generalize (lower s). intros t. induction t as [|c t IH]; intros H.
  - split; reflexivity.
  - destruct IH as [E F]; [intros c' Hc'; apply H; right; exact Hc'|].
    pose proof (H c (or_introl eq_refl)) as U. simpl.
    destruct (Unicode.is_alnum c) eqn:A.
    + rewrite (unicode_alnum_cases c A U). cbn [forallb].
      rewrite (unicode_alnum_cases c A U), F, E. split; reflexivity.
    + assert (L : Unicode.is_lower_alnum c = false).
      { destruct (Unicode.is_lower_alnum c) eqn:L; [|reflexivity].
        rewrite (unicode_lower_alnum_is_alnum c L) in A. discriminate A. }
      rewrite L. split; [exact E | exact F].
Qed.

Lemma unicode_normalize_name_eq (lower : Unicode.text -> Unicode.text)
      (s : Unicode.text) :
  Unicode.fixes_lower_alnum lower ->
  Unicode.normalize_name lower (Some s) = filter Unicode.is_alnum (lower s).
Proof.
  intros H. destruct s as [|c s]; [|reflexivity].
  rewrite (H [] eq_refl). reflexivity.
Qed.

(** The text of a name: an absent name has none. *)
Definition text_of (name : option Unicode.text) : Unicode.text :=
  match name with Some s => s | None => [] end.

(** C5.  For every text, of any characters, [normalize_name] returns only
    characters of [[a-z0-9]]: the characters of the lowered text that are
    letters of [a-z] or digits, in their order, every other character
    removed.  The empty text and an absent name give the empty text, and
    normalizing a normalized name changes nothing.  ([lower] is [str.lower],
    of which the proof uses that its result has no letter of [A-Z] and that
    it leaves a text of [[a-z0-9]] as it is.) *)
Theorem normalize_name_every_text :
  forall lower : Unicode.text -> Unicode.text,
    Unicode.never_ascii_upper lower ->
    Unicode.fixes_lower_alnum lower ->
    Unicode.normalize_name lower None = [] /\
    Unicode.normalize_name lower (Some []) = [] /\
    forall name : option Unicode.text,
      forallb Unicode.is_lower_alnum (Unicode.normalize_name lower name) = true /\
      Unicode.normalize_name lower name =
        filter Unicode.is_lower_alnum (lower (text_of name)) /\
      Unicode.normalize_name lower (Some (Unicode.normalize_name lower name)) =
        Unicode.normalize_name lower name.
Proof.
  intros lower Hu Hf. split; [reflexivity|]. split; [reflexivity|].
  intros name.
  assert (E : Unicode.normalize_name lower name
              = filter Unicode.is_alnum (lower (text_of name))).
  { destruct name as [s|]; [apply unicode_normalize_name_eq; exact Hf|].
    simpl. rewrite (Hf [] eq_refl). reflexivity. }
  destruct (unicode_filter_lowered lower (text_of name) Hu) as [F L].
  split; [rewrite E; exact L|]. split; [rewrite E; exact F|].
  rewrite (unicode_normalize_name_eq lower _ Hf).
  assert (K : forallb Unicode.is_lower_alnum (Unicode.normalize_name lower name) = true)
    by (rewrite E; exact L).
  rewrite (Hf _ K). apply unicode_filter_fixed. exact K.
Qed.

Lemma lower_char_never_ascii_upper (c c' : N) :
  In c' (Unicode.lower_char c) -> Unicode.is_ascii_upper c' = false.
Proof.
  unfold Unicode.lower_char, Unicode.is_ascii_upper, Unicode.in_range.
  destruct ((65 <=? c) && (c <=? 90))%N eqn:U; cbn [orb].
  - apply andb_true_iff in U. destruct U as [U1 U2].
    apply N.leb_le in U1. apply N.leb_le in U2.
    intros [<- | []]. apply andb_false_iff. right. apply N.leb_gt. lia.
  - destruct ((192 <=? c) && (c <=? 222) && negb (c =? 215))%N eqn:L.
    + apply andb_true_iff in L. destruct L as [L _].
      apply andb_true_iff in L. destruct L as [L1 _]. apply N.leb_le in L1.
      intros [<- | []]. apply andb_false_iff. right. apply N.leb_gt. lia.
    + destruct (c =? 8490)%N; [intros [<- | []]; reflexivity|].
      destruct (c =? 304)%N; [intros [<- | [<- | []]]; reflexivity|].
      intros [<- | []]. exact U.
Qed.

Lemma lower_sample_never_ascii_upper : Unicode.never_ascii_upper Unicode.lower_sample.
Proof.
  intros s c H. unfold Unicode.lower_sample in H. apply in_flat_map in H.
  destruct H as [c0 [_ H]]. exact (lower_char_never_ascii_upper c0 c H).
Qed.

Lemma lower_char_fixes_lower_alnum_code (c : N) :
  Unicode.is_lower_alnum c = true -> Unicode.lower_char c = [c].
Proof.
  unfold Unicode.is_lower_alnum, Unicode.is_ascii_lower, Unicode.is_digit,
    Unicode.lower_char, Unicode.is_ascii_upper, Unicode.in_range.
  intros H.
  assert (R : (48 <= c <= 57 \/ 97 <= c <= 122)%N).
  { apply orb_true_iff in H. destruct H as [H | H];
      apply andb_true_iff in H; destruct H as [H1 H2];
      apply N.leb_le in H1; apply N.leb_le in H2; lia. }
  replace ((65 <=? c) && (c <=? 90))%N with false
    by (symmetry; apply andb_false_iff;
        destruct R; [left; apply N.leb_gt | right; apply N.leb_gt]; lia).
  replace ((192 <=? c) && (c <=? 222))%N with false
    by (symmetry; apply andb_false_iff; left; apply N.leb_gt; lia).
  replace (c =? 8490)%N with false by (symmetry; apply N.eqb_neq; lia).
  replace (c =? 304)%N with false by (symmetry; apply N.eqb_neq; lia).
  reflexivity.
Qed.

Lemma lower_sample_fixes_lower_alnum : Unicode.fixes_lower_alnum Unicode.lower_sample.
Proof.
  intros s. unfold Unicode.lower_sample.
  induction s as [|c s IH]; simpl; [reflexivity|].
  intros H. apply andb_true_iff in H. destruct H as [Hc Hs].
  rewrite (lower_char_fixes_lower_alnum_code c Hc), (IH Hs). reflexivity.
Qed.

(** The Kelvin sign followed by "55-b", and the dotted capital I followed by
    "zmir": the keys are "k55b" and "izmir". *)
Lemma normalize_name_every_text_witness :
  Unicode.normalize_name Unicode.lower_sample (Some [8490; 53; 53; 45; 66]%N)
    = [107; 53; 53; 98]%N /\
  Unicode.normalize_name Unicode.lower_sample (Some [304; 122; 109; 105; 114]%N)
    = [105; 122; 109; 105; 114]%N /\
  forallb Unicode.is_lower_alnum
    (Unicode.normalize_name Unicode.lower_sample (Some [8490; 53; 53; 45; 66]%N)) = true /\
  Unicode.normalize_name Unicode.lower_sample
    (Some (Unicode.normalize_name Unicode.lower_sample (Some [8490; 53; 53; 45; 66]%N)))
    = Unicode.normalize_name Unicode.lower_sample (Some [8490; 53; 53; 45; 66]%N).
Proof.
  destruct (normalize_name_every_text Unicode.lower_sample
              lower_sample_never_ascii_upper lower_sample_fixes_lower_alnum)
    as [_ [_ H]].
  destruct (H (Some [8490; 53; 53; 45; 66]%N)) as [L [_ I]].
  split; [reflexivity|]. split; [reflexivity|]. split; [exact L | exact I].
Defined.

(** On a text of the narrow model the two embeddings of [normalize_name]
    agree, for a [lower] that is [Py.lower] there. *)
Lemma normalize_name_codes (lower : Unicode.text -> Unicode.text) (s : string) :
  (forall t : string, lower (Unicode.codes t) = Unicode.codes (Py.lower t)) ->
  Unicode.normalize_name lower (Some (Unicode.codes s)) =
  Unicode.codes (normalize_name (Some s)).
Proof.
  intros H. destruct s as [|c s]; [reflexivity|].
  change (Unicode.normalize_name lower (Some (Unicode.codes (String c s))))
    with (filter Unicode.is_alnum (lower (Unicode.codes (String c s)))).
  rewrite H. unfold normalize_name, re_sub_non_alnum. cbn [Py.nonempty].
  generalize (Py.lower (String c s)). intros t.
  induction t as [|a t IH]; [reflexivity|].
  unfold Unicode.codes in *. cbn [list_ascii_of_string map filter Py.str_filter].
  change (Unicode.is_alnum (N_of_ascii a)) with (Py.is_alnum a).
  destruct (Py.is_alnum a); cbn [list_ascii_of_string map]; rewrite IH; reflexivity.
Qed.

(** ** The matcher *)

(** A survey entry matches a catalog key: its own key is not empty, and one
    of the two keys is a substring of the other. *)
Definition is_match (laptop_model_norm : string) (s : Survey.t) : Prop :=
  Survey.model_normalized s <> "" /\
  (substring (Survey.model_normalized s) laptop_model_norm \/
   substring laptop_model_norm (Survey.model_normalized s)).

Lemma matches_iff (key : string) (s : Survey.t) :
  matches key s = true <-> is_match key s.
Proof.
  unfold matches, is_match.
  rewrite andb_true_iff, orb_true_iff, nonempty_iff, !contains_iff. reflexivity.
Qed.

(** [m] is the first entry of [survey_data], in its order, that matches. *)
Definition first_match (key : string) (survey_data : list Survey.t) (m : Survey.t) : Prop :=
  exists before after,
    survey_data = (before ++ m :: after)%list /\
    (forall s, In s before -> ~ is_match key s) /\
    is_match key m.

Lemma find_match_some (key : string) (survey_data : list Survey.t) (m : Survey.t) :
  find_match survey_data key = Some m <-> first_match key survey_data m.
Proof.
  unfold first_match. induction survey_data as [|s l IH]; simpl.
  - split; [discriminate|]. intros [[|? ?] [after [H _]]]; discriminate H.
  - destruct (matches key s) eqn:E.
    + split.
      * intros H. injection H as <-. exists [], l. simpl.
        split; [reflexivity|]. split; [intros ? [] | apply matches_iff; exact E].
      * intros [before [after [H [Hb Hm]]]]. destruct before as [|b before].
        -- simpl in H. injection H as -> _. reflexivity.
        -- simpl in H. injection H as -> _. exfalso.
           apply (Hb b); [left; reflexivity | apply matches_iff; exact E].
    + rewrite IH. split.
      * intros [before [after [-> [Hb Hm]]]]. exists (s :: before), after.
        split; [reflexivity|]. split; [|exact Hm].
        intros x [<-|Hx]; [|apply Hb; exact Hx].
        intros C. apply matches_iff in C. congruence.
      * intros [before [after [H [Hb Hm]]]]. destruct before as [|b before].
        -- simpl in H. injection H as -> _.
           apply matches_iff in Hm. congruence.
        -- simpl in H. injection H as -> ->. exists before, after.
           split; [reflexivity|]. split; [|exact Hm].
           intros x Hx. apply Hb. right. exact Hx.
Qed.

Lemma find_match_none (key : string) (survey_data : list Survey.t) :
  find_match survey_data key = None <-> forall s, In s survey_data -> ~ is_match key s.
Proof.
  induction survey_data as [|s l IH]; simpl.
  - split; [intros _ ? [] | reflexivity].
  - destruct (matches key s) eqn:E.
    + split; [discriminate|]. intros H. exfalso.
      apply (H s); [left; reflexivity | apply matches_iff; exact E].
    + rewrite IH. split.
      * intros H x [<-|Hx]; [|apply H; exact Hx].
        intros C. apply matches_iff in C. congruence.
      * intros H x Hx. apply H. right. exact Hx.
Qed.

(** C2.  For every catalog name and every sequence of survey entries, the
    matcher returns an entry exactly when it is the first one, in the loaded
    order, whose key is not empty and is a substring of the catalog key or
    has it as a substring, whatever entries follow it; it returns none
    exactly when no entry matches. *)
Theorem find_match_is_first_match :
  forall (name : option string) (survey_data : list Survey.t),
    let key := normalize_name name in
    (forall m, find_match survey_data key = Some m <-> first_match key survey_data m) /\
    (find_match survey_data key = None <->
       forall s, In s survey_data -> ~ is_match key s).
Proof.
  intros name survey_data key. split.
  - intros m. apply find_match_some.
  - apply find_match_none.
Qed.

(** ** Rows *)

Lemma dict_get_set (d : dict) (k : string) (v : cell) (k' : string) :
  dict_get (dict_set d k v) k' = if String.eqb k k' then Some v else dict_get d k'.
Proof.
  induction d as [|[k0 v0] d IH]; simpl.
  - reflexivity.
  - destruct (String.eqb k0 k) eqn:E; simpl.
    + apply String.eqb_eq in E. subst k0. destruct (String.eqb k k'); reflexivity.
    + rewrite IH. destruct (String.eqb k0 k') eqn:E'; [|reflexivity].
      apply String.eqb_eq in E'. subst k0. rewrite String.eqb_sym, E. reflexivity.
Qed.

Lemma get_set (r : row) (k : string) (v : cell) (k' : string) :
  get (set r k v) k' = if String.eqb k k' then Some v else get r k'.
Proof. apply dict_get_set. Qed.

Lemma get_set_other (r : row) (k : string) (v : cell) (k' : string) :
  k' <> k -> get (set r k v) k' = get r k'.
Proof.
  intros H. rewrite get_set.
  destruct (String.eqb k k') eqn:E; [|reflexivity].
  apply String.eqb_eq in E. congruence.
Qed.

(** Rewriting [get (set r k v) k'] for two literal keys. *)
Ltac get_set :=
  repeat (rewrite get_set;
          match goal with
          | |- context [String.eqb ?a ?b] =>
              let v := eval vm_compute in (String.eqb a b) in
              change (String.eqb a b) with v
          end; cbv iota).

(** The cell of column [k] is not [None]: the column is missing, or the
    cell holds text. *)
Definition present (r : row) (k : string) : Prop := get r k <> Some None.

Lemma get_lower_present (r : row) (k : string) :
  present r k -> exists t, get_lower r k = Ok t.
Proof.
  unfold present, get_lower. destruct (get r k) as [[s|]|]; intros H.
  - exists (Py.lower s). reflexivity.
  - exfalso. apply H. reflexivity.
  - exists (Py.lower ""). reflexivity.
Qed.

Lemma ram_of_present (r : row) :
  present r "ram(GB)" -> exists n, ram_of r = Ok n.
Proof.
  unfold present, ram_of. destruct (get r "ram(GB)") as [[s|]|]; intros H.
  - destruct (Py.int s) as [n|]; [exists n | exists 0%Z]; reflexivity.
  - exfalso. apply H. reflexivity.
  - exists 0%Z. reflexivity.
Qed.

(** ** get_inferred_data *)

(** The classifier reads three columns only. *)
Lemma get_inferred_data_ext (r r' : row) :
  get r' "ram(GB)" = get r "ram(GB)" ->
  get r' "graphics" = get r "graphics" ->
  get r' "processor_name" = get r "processor_name" ->
  get_inferred_data r' = get_inferred_data r.
Proof.
  intros H1 H2 H3. unfold get_inferred_data, ram_of, get_lower.
  rewrite H1, H2, H3. reflexivity.
Qed.

Lemma get_inferred_data_returns (r : row) :
  present r "ram(GB)" -> present r "graphics" -> present r "processor_name" ->
  exists inferred,
    get_inferred_data r = Ok inferred /\
    (inferred = high_spec \/ inferred = mid_spec \/ inferred = low_spec).
Proof.
  intros Hr Hg Hp. unfold get_inferred_data.
  destruct (ram_of_present r Hr) as [n ->].
  destruct (get_lower_present _ _ Hg) as [gpu ->].
  destruct (get_lower_present _ _ Hp) as [cpu ->].
  cbn [bind].
  destruct (16 <=? n)%Z; destruct (has_gpu_keyword gpu); destruct (8 <=? n)%Z;
    eexists; (split; [reflexivity|]); auto.
Qed.

Lemma inferred_bundle_nonempty (inferred : Inferred.t) :
  inferred = high_spec \/ inferred = mid_spec \/ inferred = low_spec ->
  Py.nonempty (Inferred.Major inferred) = true /\
  Py.nonempty (Inferred.Activities inferred) = true /\
  Py.nonempty (Inferred.ProgramList inferred) = true.
Proof. intros [-> | [-> | ->]]; repeat split. Qed.

(** ** The hardware imputer *)

(** The three imputations of the loop, in its order. *)
Definition impute (r : row) : result row :=
  r <- impute_graphics r ;;
  Ok (impute_default "resolution (pixels)" "1920 x 1080"
        (impute_default "screen_size(inches)" "15.6" r)).

Lemma process_row_eq (survey_data : list Survey.t) (r : row) :
  process_row survey_data r =
  (name <- model_name r ;;
   r3 <- impute r ;;
   merge_fields r3 (find_match survey_data (normalize_name name))).
Proof.
  unfold process_row, impute. destruct (model_name r); [|reflexivity].
  cbn [bind]. destruct (impute_graphics r); reflexivity.
Qed.

Definition imputed_column (k : string) : Prop :=
  k = "graphics" \/ k = "screen_size(inches)" \/ k = "resolution (pixels)".

Lemma impute_default_frame (k v : string) (r : row) (k' : string) :
  k' <> k -> get (impute_default k v r) k' = get r k'.
Proof.
  intros H. unfold impute_default.
  destruct (needs_default r k); [apply get_set_other; exact H | reflexivity].
Qed.

Lemma impute_default_restkey (k v : string) (r : row) :
  restkey (impute_default k v r) = restkey r.
Proof. unfold impute_default. destruct (needs_default r k); reflexivity. Qed.

Lemma impute_graphics_returns (r : row) :
  present r "processor_name" ->
  exists r1, impute_graphics r = Ok r1 /\
    (forall k, k <> "graphics" -> get r1 k = get r k) /\
    truthy (get r1 "graphics") = true /\
    restkey r1 = restkey r.
Proof.
  intros Hp. unfold impute_graphics.
  destruct (needs_default r "graphics") eqn:E.
  - destruct (get_lower_present _ _ Hp) as [proc ->]. cbn [bind].
    destruct (Py.contains "intel" proc);
      [|destruct (Py.contains "amd" proc || Py.contains "ryzen" proc)];
      eexists; (split; [reflexivity|]);
      (split; [intros k Hk; apply get_set_other; exact Hk|]);
      (split; [get_set; reflexivity | reflexivity]).
  - exists r. split; [reflexivity|]. split; [reflexivity|]. split; [|reflexivity].
    unfold needs_default in E. apply orb_false_iff in E. destruct E as [E _].
    apply negb_false_iff in E. exact E.
Qed.

Lemma truthy_present (r : row) (k : string) :
  truthy (get r k) = true -> present r k.
Proof. unfold present. destruct (get r k) as [[s|]|]; simpl; congruence. Qed.

Lemma impute_returns (r : row) :
  present r "processor_name" ->
  exists r3, impute r = Ok r3 /\
    (forall k, ~ imputed_column k -> get r3 k = get r k) /\
    present r3 "graphics" /\
    restkey r3 = restkey r.
Proof.
  intros Hp. unfold impute.
  destruct (impute_graphics_returns r Hp) as [r1 [-> [Hf [Hg Hr]]]]. cbn [bind].
  eexists. split; [reflexivity|]. split; [|split].
  - intros k Hk. unfold imputed_column in Hk.
    rewrite !impute_default_frame by tauto. apply Hf. tauto.
  - apply truthy_present.
    rewrite !impute_default_frame by discriminate. exact Hg.
  - rewrite !impute_default_restkey. exact Hr.
Qed.

(** ** The merge of one catalog record *)

(** The copied ProgramList counts as missing: it is absent, or its lowered
    text is empty, "none" or "nan". *)
Definition program_list_blank (v : cell) : Prop :=
  v = None \/
  exists s, v = Some s /\
    (Py.lower s = "" \/ Py.lower s = "none" \/ Py.lower s = "nan").

Lemma lower_empty (s : string) : Py.lower s = "" <-> s = "".
Proof.
  unfold Py.lower. destruct s; simpl; split; intros H;
    try reflexivity; discriminate H.
Qed.

Lemma program_list_missing_iff (v : cell) :
  program_list_missing v = true <-> program_list_blank v.
Proof.
  unfold program_list_missing, program_list_blank. destruct v as [s|].
  - unfold Py.mem. cbn [existsb]. rewrite orb_false_r.
    rewrite !orb_true_iff, negb_true_iff, !String.eqb_eq. split.
    + intros H. right. exists s. split; [reflexivity|].
      destruct H as [H | [H | [H | H]]]; auto.
      left. apply lower_empty. destruct s; [reflexivity | discriminate H].
    + intros [H | [s' [H H']]]; [discriminate H|].
      injection H as <-. destruct H' as [H | [H | H]]; auto.
  - split; [intros _; left; reflexivity | reflexivity].
Qed.

Lemma program_list_kept_nonempty (v : cell) :
  program_list_missing v = false -> truthy (Some v) = true.
Proof.
  destruct v as [s|]; simpl; [|discriminate].
  intros H. apply orb_false_iff in H. destruct H as [H _].
  apply negb_false_iff in H. exact H.
Qed.

(** The three fields copied from a survey entry. *)
Definition copy_fields (r : row) (m : Survey.t) : row :=
  set (set (set r "Major" (Survey.Major m))
                "Activities" (Survey.Activities m))
           "ProgramList" (Survey.ProgramList m).

(** The three fields taken from the classifier. *)
Definition infer_fields (r : row) (inferred : Inferred.t) : row :=
  set (set (set r "Major" (Some (Inferred.Major inferred)))
                "Activities" (Some (Inferred.Activities inferred)))
           "ProgramList" (Some (Inferred.ProgramList inferred)).

Definition is_bundle (inferred : Inferred.t) : Prop :=
  inferred = high_spec \/ inferred = mid_spec \/ inferred = low_spec.

Lemma imputed_row_classified (r r3 : row) :
  present r "ram(GB)" -> present r "processor_name" ->
  (forall k, ~ imputed_column k -> get r3 k = get r k) ->
  present r3 "graphics" ->
  exists inferred, get_inferred_data r3 = Ok inferred /\ is_bundle inferred.
Proof.
  intros Hr Hp Hf Hg. apply get_inferred_data_returns; [| exact Hg |].
  - unfold present. rewrite Hf; [exact Hr|].
    unfold imputed_column. intros [H | [H | H]]; discriminate H.
  - unfold present. rewrite Hf; [exact Hp|].
    unfold imputed_column. intros [H | [H | H]]; discriminate H.
Qed.

Lemma get_inferred_data_copy_fields (r : row) (m : Survey.t) :
  get_inferred_data (copy_fields r m) = get_inferred_data r.
Proof. apply get_inferred_data_ext; unfold copy_fields; get_set; reflexivity. Qed.

(** A record with a match: the pipeline returns, with the survey's fields,
    the ProgramList replaced when it counts as missing. *)
Lemma process_row_matched (survey_data : list Survey.t) (r : row)
      (name : cell) (m : Survey.t) :
  get r "model_name" = Some name ->
  find_match survey_data (normalize_name name) = Some m ->
  present r "ram(GB)" -> present r "processor_name" ->
  exists r3, impute r = Ok r3 /\
    ((program_list_missing (Survey.ProgramList m) = false /\
      process_row survey_data r = Ok (copy_fields r3 m)) \/
     (program_list_missing (Survey.ProgramList m) = true /\
      exists inferred,
        get_inferred_data r3 = Ok inferred /\ is_bundle inferred /\
        process_row survey_data r =
          Ok (set (copy_fields r3 m) "ProgramList"
                  (Some (Inferred.ProgramList inferred))))).
Proof.
  intros Hn Hm Hr Hp. rewrite process_row_eq.
  unfold model_name. rewrite Hn. cbn [bind].
  destruct (impute_returns r Hp) as [r3 [E [Hf [Hg _]]]].
  exists r3. split; [exact E|]. rewrite E. cbn [bind]. rewrite Hm.
  unfold merge_fields. fold (copy_fields r3 m).
  destruct (program_list_missing (Survey.ProgramList m)).
  - right. split; [reflexivity|].
    destruct (imputed_row_classified r r3 Hr Hp Hf Hg) as [inferred [Hi Hb]].
    exists inferred. split; [exact Hi|]. split; [exact Hb|].
    rewrite get_inferred_data_copy_fields, Hi. reflexivity.
  - left. split; reflexivity.
Qed.

(** A record without a match: the pipeline returns, with the three fields of
    the classifier. *)
Lemma process_row_unmatched (survey_data : list Survey.t) (r : row) (name : cell) :
  get r "model_name" = Some name ->
  find_match survey_data (normalize_name name) = None ->
  present r "ram(GB)" -> present r "processor_name" ->
  exists r3 inferred,
    impute r = Ok r3 /\
    get_inferred_data r3 = Ok inferred /\ is_bundle inferred /\
    process_row survey_data r = Ok (infer_fields r3 inferred).
Proof.
  intros Hn Hm Hr Hp. rewrite process_row_eq.
  unfold model_name. rewrite Hn. cbn [bind].
  destruct (impute_returns r Hp) as [r3 [E [Hf [Hg _]]]].
  destruct (imputed_row_classified r r3 Hr Hp Hf Hg) as [inferred [Hi Hb]].
  exists r3, inferred. split; [exact E|]. split; [exact Hi|]. split; [exact Hb|].
  rewrite E. cbn [bind]. rewrite Hm. unfold merge_fields. rewrite Hi. reflexivity.
Qed.

(** A catalog row with every column filled in. *)
Definition catalog_row (model ram processor graphics : string) : row :=
  dict_reader_row
    ["model_name"; "ram(GB)"; "processor_name"; "graphics";
     "screen_size(inches)"; "resolution (pixels)"]
    [model; ram; processor; graphics; "15.6"; "1920 x 1080"].

(** A respondent who named the laptop and the software, and left the major
    and the activities empty. *)
Definition entry_without_major : Survey.t :=
  Survey.Build "hppavilion" (Some "") (Some "") (Some "Photoshop").

(** A respondent who left the software list empty. *)
Definition entry_without_programs : Survey.t :=
  Survey.Build "dellxps" (Some "Computer Science") (Some "Programming") (Some "").

(** C1, as stated, fails: a record matched to a survey entry with an empty
    Major and empty Activities keeps them empty. *)
Lemma matched_record_keeps_empty_major :
  exists r',
    process_row [entry_without_major]
                (catalog_row "HP Pavilion 15" "8" "Intel Core i5" "Intel UHD") = Ok r' /\
    get r' "Major" = Some (Some "") /\
    get r' "Activities" = Some (Some "") /\
    truthy (get r' "Major") = false /\
    truthy (get r' "Activities") = false.
Proof. eexists. split; [vm_compute; reflexivity|]. repeat split. Qed.

(** C1, amended.  A catalog record with a model_name column, whose ram(GB)
    and processor_name cells are not absent, is processed to the end; the
    resulting record has a non-empty ProgramList; without a survey match its
    Major and Activities are non-empty too, and with a match they are the
    Major and Activities of the matched survey entry, as they are. *)
Theorem processed_record_fields :
  forall (survey_data : list Survey.t) (r : row) (name : cell),
    get r "model_name" = Some name ->
    present r "ram(GB)" -> present r "processor_name" ->
    exists r',
      process_row survey_data r = Ok r' /\
      truthy (get r' "ProgramList") = true /\
      match find_match survey_data (normalize_name name) with
      | None =>
          truthy (get r' "Major") = true /\ truthy (get r' "Activities") = true
      | Some m =>
          get r' "Major" = Some (Survey.Major m) /\
          get r' "Activities" = Some (Survey.Activities m)
      end.
Proof.
  intros survey_data r name Hn Hr Hp.
  destruct (find_match survey_data (normalize_name name)) as [m|] eqn:Hm.
  - destruct (process_row_matched survey_data r name m Hn Hm Hr Hp)
      as [r3 [_ [[Hk ->] | [_ [inferred [_ [Hb ->]]]]]]];
      eexists; (split; [reflexivity|]); unfold copy_fields; get_set.
    + split; [apply program_list_kept_nonempty; exact Hk | split; reflexivity].
    + split; [apply inferred_bundle_nonempty; exact Hb | split; reflexivity].
  - destruct (process_row_unmatched survey_data r name Hn Hm Hr Hp)
      as [r3 [inferred [_ [_ [Hb ->]]]]].
    eexists. split; [reflexivity|]. unfold infer_fields. get_set.
    destruct (inferred_bundle_nonempty inferred Hb) as [H1 [H2 H3]].
    split; [exact H3 | split; [exact H1 | exact H2]].
Qed.

Lemma processed_record_fields_witness :
  exists r',
    process_row [entry_without_programs]
                (catalog_row "Dell XPS 13" "16" "Intel Core i7" "Intel Iris Xe") = Ok r' /\
    truthy (get r' "ProgramList") = true /\
    get r' "Major" = Some (Some "Computer Science") /\
    get r' "Activities" = Some (Some "Programming").
Proof.
  destruct (processed_record_fields [entry_without_programs]
              (catalog_row "Dell XPS 13" "16" "Intel Core i7" "Intel Iris Xe")
              (Some "Dell XPS 13"))
    as [r' [H1 [H2 H3]]].
  - reflexivity.
  - discriminate.
  - discriminate.
  - exists r'. split; [exact H1|]. split; [exact H2|]. exact H3.
Defined.

(** On a catalog record that has a model_name column and whose ram(GB) and
    processor_name cells are not absent: with a survey match whose copied
    ProgramList counts as missing, the pipeline returns the imputed record
    with the ProgramList of the classifier, the Major and the Activities of
    the match, and every other column as it was. *)
Theorem matched_blank_program_list_is_inferred :
  forall (survey_data : list Survey.t) (r : row) (name : cell) (m : Survey.t),
    get r "model_name" = Some name ->
    find_match survey_data (normalize_name name) = Some m ->
    program_list_blank (Survey.ProgramList m) ->
    present r "ram(GB)" -> present r "processor_name" ->
    exists r3 inferred r',
      impute r = Ok r3 /\
      get_inferred_data r3 = Ok inferred /\
      process_row survey_data r = Ok r' /\
      get r' "ProgramList" = Some (Some (Inferred.ProgramList inferred)) /\
      get r' "Major" = Some (Survey.Major m) /\
      get r' "Activities" = Some (Survey.Activities m) /\
      (forall k, k <> "Major" -> k <> "Activities" -> k <> "ProgramList" ->
                 get r' k = get r3 k) /\
      restkey r' = restkey r3.
Proof.
  intros survey_data r name m Hn Hm Hb Hr Hp.
  apply program_list_missing_iff in Hb.
  destruct (process_row_matched survey_data r name m Hn Hm Hr Hp)
    as [r3 [E [[Hk _] | [_ [inferred [Hi [_ Hrow]]]]]]]; [congruence|].
  exists r3, inferred. eexists.
  split; [exact E|]. split; [exact Hi|]. split; [exact Hrow|].
  unfold copy_fields. get_set.
  split; [reflexivity|]. split; [reflexivity|]. split; [reflexivity|].
  split; [|reflexivity].
  intros k H1 H2 H3. rewrite !get_set_other by assumption. reflexivity.
Qed.

Lemma matched_blank_program_list_is_inferred_witness :
  exists r3 inferred r',
    impute (catalog_row "Dell XPS 13" "16" "Intel Core i7" "Intel Iris Xe") = Ok r3 /\
    get_inferred_data r3 = Ok inferred /\
    process_row [entry_without_programs]
                (catalog_row "Dell XPS 13" "16" "Intel Core i7" "Intel Iris Xe") = Ok r' /\
    get r' "ProgramList" = Some (Some (Inferred.ProgramList inferred)) /\
    get r' "Major" = Some (Some "Computer Science") /\
    get r' "Activities" = Some (Some "Programming") /\
    (forall k, k <> "Major" -> k <> "Activities" -> k <> "ProgramList" ->
               get r' k = get r3 k) /\
    restkey r' = restkey r3.
Proof.
  apply (matched_blank_program_list_is_inferred
           [entry_without_programs]
           (catalog_row "Dell XPS 13" "16" "Intel Core i7" "Intel Iris Xe")
           (Some "Dell XPS 13") entry_without_programs).
  - reflexivity.
  - reflexivity.
  - right. exists "". split; [reflexivity | left; reflexivity].
  - discriminate.
  - discriminate.
Defined.

(** C10, as stated, fails: a record whose name normalizes to the empty
    string is matched to the first entry with a key, and when that entry has
    no ProgramList the classifier is still used, for the ProgramList. *)
Lemma empty_name_match_still_infers_program_list :
  normalize_name (Some "???") = "" /\
  find_match [entry_without_programs] "" = Some entry_without_programs /\
  Survey.ProgramList entry_without_programs = Some "" /\
  get_inferred_data (catalog_row "???" "4" "Intel Celeron" "Intel UHD") = Ok low_spec /\
  exists r',
    process_row [entry_without_programs]
                (catalog_row "???" "4" "Intel Celeron" "Intel UHD") = Ok r' /\
    get r' "ProgramList" = Some (Some (Inferred.ProgramList low_spec)).
Proof.
  repeat (split; [reflexivity|]).
  eexists. split; [vm_compute; reflexivity | reflexivity].
Qed.

(** C10, amended.  For a catalog record with a model_name column whose
    normalized name is empty, and a survey sequence with an entry whose key
    is not empty, the matcher returns the first such entry, so the branch
    without a match is not taken.  When, in addition, the ram(GB) and
    processor_name cells of the record are not absent, the record is
    processed to the end: its Major and Activities are those of that entry,
    and so is its ProgramList unless that counts as missing, in which case
    it is the ProgramList of the classifier. *)
Theorem empty_name_matches_first_keyed_entry :
  forall (r : row) (name : cell) (before : list Survey.t) (m : Survey.t)
         (after : list Survey.t),
    get r "model_name" = Some name ->
    normalize_name name = "" ->
    (forall s, In s before -> Survey.model_normalized s = "") ->
    Survey.model_normalized m <> "" ->
    find_match (before ++ m :: after) (normalize_name name) = Some m /\
    (present r "ram(GB)" -> present r "processor_name" ->
     exists r3 r',
       impute r = Ok r3 /\
       process_row (before ++ m :: after) r = Ok r' /\
       get r' "Major" = Some (Survey.Major m) /\
       get r' "Activities" = Some (Survey.Activities m) /\
       (~ program_list_blank (Survey.ProgramList m) ->
          get r' "ProgramList" = Some (Survey.ProgramList m)) /\
       (program_list_blank (Survey.ProgramList m) ->
          exists inferred,
            get_inferred_data r3 = Ok inferred /\
            get r' "ProgramList" = Some (Some (Inferred.ProgramList inferred)))).
Proof.
  intros r name before m after Hn He Hb Hm.
  assert (F : find_match (before ++ m :: after) (normalize_name name) = Some m).
  { apply find_match_some. exists before, after. split; [reflexivity|].
    split.
    - intros s Hs [Hk _]. apply Hk. apply Hb. exact Hs.
    - split; [exact Hm|]. right. rewrite He.
      exists "", (Survey.model_normalized m). reflexivity. }
  split; [exact F|]. intros Hr Hp.
  destruct (process_row_matched (before ++ m :: after) r name m Hn F Hr Hp)
    as [r3 [E [[Hk ->] | [Hk [inferred [Hi [_ ->]]]]]]];
    exists r3; eexists; (split; [exact E|]); (split; [reflexivity|]);
    unfold copy_fields; get_set;
    (split; [reflexivity|]); (split; [reflexivity|]); split.
  - reflexivity.
  - intros H. apply program_list_missing_iff in H. congruence.
  - intros H. exfalso. apply H. apply program_list_missing_iff. exact Hk.
  - intros _. exists inferred. split; [exact Hi | reflexivity].
Qed.

Lemma empty_name_matches_first_keyed_entry_witness :
  find_match ([] ++ entry_without_major :: [entry_without_programs])
             (normalize_name (Some "???")) = Some entry_without_major /\
  exists r',
    process_row ([] ++ entry_without_major :: [entry_without_programs])
                (catalog_row "???" "4" "Intel Celeron" "Intel UHD") = Ok r' /\
    get r' "ProgramList" = Some (Some "Photoshop").
Proof.
  destruct (empty_name_matches_first_keyed_entry
              (catalog_row "???" "4" "Intel Celeron" "Intel UHD") (Some "???")
              [] entry_without_major [entry_without_programs])
    as [F P].
  - reflexivity.
  - reflexivity.
  - intros s [].
  - discriminate.
  - split; [exact F|].
    destruct P as [r3 [r' [_ [H [_ [_ [Hk _]]]]]]]; [discriminate | discriminate |].
    exists r'. split; [exact H|]. apply Hk.
    intros [C | [s [C [C' | [C' | C']]]]]; try discriminate C;
      injection C as <-; discriminate C'.
Defined.

(** ** Absent cells in the classifier and in the imputer *)

(** The two input files of [main], and nothing else. *)
Definition dataset (laptop survey : list (list string)) : filesystem :=
  write_file (write_file (fun _ => None) laptop_file laptop) survey_file survey.

Definition survey_header : list string :=
  ["Timestamp";
   "What is your major?";
   "What is the laptop model you primarily use for your studies?(You can find your pc model in your system settings)";
   "Which activities do you use your laptop for?";
   "If you use specialized software, please list them"].

(** C3 on a short catalog row.  The row ends before its ram(GB) cell, so
    the reader gives that cell [None]; [int(None)] is a [TypeError], the
    handler catches [ValueError] only, and the classifier, and with it the
    run, ends in the error instead of taking the RAM for 0. *)
Lemma absent_ram_cell_raises :
  let header := ["model_name"; "processor_name"; "graphics"; "ram(GB)"] in
  let cells := ["Aspire 5"; "Intel Core i5"; "Intel UHD Graphics"] in
  get (dict_reader_row header cells) "ram(GB)" = Some None /\
  get_inferred_data (dict_reader_row header cells) = Raise TypeError /\
  outcome (main (dataset [header; cells] [survey_header])) = Raise TypeError.
Proof. repeat split; vm_compute; reflexivity. Qed.

(** C4 on a short catalog row.  The row ends before its processor_name and
    graphics cells; the graphics are to be imputed, [row.get] gives [None]
    for the processor (the default serves a missing key only), and the
    imputer, and with it the run, ends in an [AttributeError] instead of
    taking the processor for the empty string. *)
Lemma absent_processor_cell_raises :
  let header := ["model_name"; "ram(GB)"; "processor_name"; "graphics"] in
  let cells := ["Aspire 5"; "8"] in
  get (dict_reader_row header cells) "processor_name" = Some None /\
  needs_default (dict_reader_row header cells) "graphics" = true /\
  impute_graphics (dict_reader_row header cells) = Raise AttributeError /\
  outcome (main (dataset [header; cells] [survey_header])) = Raise AttributeError.
Proof. repeat split; vm_compute; reflexivity. Qed.

(** C6 on a short catalog row.  The record is matched to a survey answer
    without a software list, so the ProgramList is to be inferred; the row
    ends before its ram(GB) cell, the classifier raises the [TypeError] of
    [int(None)], and the run ends in it: no ProgramList is inferred, and no
    record is produced. *)
Lemma matched_blank_program_list_absent_ram_raises :
  let header := ["model_name"; "processor_name"; "graphics"; "ram(GB)"] in
  let cells := ["Dell XPS 13"; "Intel Core i7"; "Intel Iris Xe"] in
  let survey := [survey_header;
                 ["1 May"; "Computer Science"; "Dell XPS"; "Programming"; ""]] in
  let entry := Survey.Build "dellxps" (Some "Computer Science")
                            (Some "Programming") (Some "") in
  read_survey (dataset [header; cells] survey) = Ok [entry] /\
  find_match [entry] (normalize_name (Some "Dell XPS 13")) = Some entry /\
  program_list_missing (Survey.ProgramList entry) = true /\
  get (dict_reader_row header cells) "ram(GB)" = Some None /\
  process_row [entry] (dict_reader_row header cells) = Raise TypeError /\
  main (dataset [header; cells] survey)
  = mkRun (Raise TypeError) [] (dataset [header; cells] survey).
Proof. repeat split; vm_compute; reflexivity. Qed.

(** ** The keys of the rows of a file *)

Definition dkeys (d : dict) : list string := map fst d.

(** The keys after [d[k] = ...]. *)
Fixpoint add_key (ks : list string) (k : string) : list string :=
  match ks with
  | [] => [k]
  | k' :: ks' => if String.eqb k' k then ks else k' :: add_key ks' k
  end.

(** The keys of every row of a file with header [header]: its names, each
    once, in their order. *)
Definition header_keys (header : list string) : list string :=
  fold_left add_key header [].

Lemma dkeys_set (d : dict) (k : string) (v : cell) :
  dkeys (dict_set d k v) = add_key (dkeys d) k.
Proof.
  induction d as [|[k0 v0] d IH]; simpl; [reflexivity|].
  destruct (String.eqb k0 k); simpl; [reflexivity | rewrite IH; reflexivity].
Qed.

Lemma dkeys_fold_pairs (l : list (string * string)) (d : dict) :
  dkeys (fold_left (fun d kv => dict_set d (fst kv) (Some (snd kv))) l d) =
  fold_left add_key (map fst l) (dkeys d).
Proof.
  revert d. induction l as [|kv l IH]; intros d; simpl; [reflexivity|].
  rewrite IH, dkeys_set. reflexivity.
Qed.

Lemma dkeys_fold_none (l : list string) (d : dict) :
  dkeys (fold_left (fun d k => dict_set d k None) l d) =
  fold_left add_key l (dkeys d).
Proof.
  revert d. induction l as [|k l IH]; intros d; simpl; [reflexivity|].
  rewrite IH, dkeys_set. reflexivity.
Qed.

Lemma map_fst_combine (h : list string) (cells : list string) :
  map fst (combine h cells) = firstn (length cells) h.
Proof.
  revert cells. induction h as [|k h IH]; intros [|c cells]; simpl;
    try reflexivity.
  rewrite IH. reflexivity.
Qed.

Lemma dkeys_reader_row (header cells : list string) :
  dkeys (fields (dict_reader_row header cells)) = header_keys header.
Proof.
  unfold dict_reader_row, header_keys, zip_dict.
  destruct (Nat.ltb (length header) (length cells)) eqn:E1;
    [|destruct (Nat.ltb (length cells) (length header)) eqn:E2]; cbn [fields].
  - rewrite dkeys_fold_pairs, map_fst_combine. simpl dkeys.
    apply Nat.ltb_lt in E1. rewrite firstn_all2 by lia. reflexivity.
  - rewrite dkeys_fold_none, dkeys_fold_pairs, map_fst_combine. simpl dkeys.
    rewrite <- fold_left_app, firstn_skipn. reflexivity.
  - rewrite dkeys_fold_pairs, map_fst_combine. simpl dkeys.
    apply Nat.ltb_ge in E1. apply Nat.ltb_ge in E2.
    rewrite firstn_all2 by lia. reflexivity.
Qed.

Lemma restkey_reader_row (header cells : list string) :
  restkey (dict_reader_row header cells) =
  if Nat.ltb (length header) (length cells)
  then Some (skipn (length header) cells) else None.
Proof.
  unfold dict_reader_row.
  destruct (Nat.ltb (length header) (length cells));
    [|destruct (Nat.ltb (length cells) (length header))]; reflexivity.
Qed.

Lemma in_add_key (ks : list string) (k k' : string) :
  In k' (add_key ks k) <-> k' = k \/ In k' ks.
Proof.
  induction ks as [|k0 ks IH]; simpl.
  - intuition congruence.
  - destruct (String.eqb k0 k) eqn:E; simpl.
    + apply String.eqb_eq in E. subst k0. intuition congruence.
    + rewrite IH. intuition.
Qed.

Lemma in_fold_add_key (l ks : list string) (k : string) :
  In k (fold_left add_key l ks) <-> In k l \/ In k ks.
Proof.
  revert ks. induction l as [|k0 l IH]; intros ks; simpl.
  - intuition.
  - rewrite IH, in_add_key. intuition congruence.
Qed.

Lemma in_header_keys (header : list string) (k : string) :
  In k (header_keys header) <-> In k header.
Proof. unfold header_keys. rewrite in_fold_add_key. simpl. intuition. Qed.



(** ** main: the survey header, the missing files *)

(** The header has a column that [p] accepts, on its lowered name. *)
Definition has_column (p : string -> bool) (header : list string) : Prop :=
  exists k, In k header /\ p (Py.lower k) = true.

Lemma keys_where_strings (p : string -> bool) (ks : list string) :
  keys_where p (map Some ks) = Ok (filter (fun k => p (Py.lower k)) ks).
Proof.
  induction ks as [|k ks IH]; simpl; [reflexivity|].
  rewrite IH. cbn [bind]. destruct (p (Py.lower k)); reflexivity.
Qed.

Lemma keys_reader_row (header cells : list string) :
  length cells <= length header ->
  keys (dict_reader_row header cells) = map Some (header_keys header).
Proof.
  intros H. unfold keys. rewrite restkey_reader_row.
  replace (Nat.ltb (length header) (length cells)) with false
    by (symmetry; apply Nat.ltb_ge; exact H).
  rewrite app_nil_r, <- (dkeys_reader_row header cells).
  unfold dkeys. rewrite map_map. reflexivity.
Qed.

Lemma no_column_no_key (p : string -> bool) (header : list string) :
  ~ has_column p header ->
  filter (fun k => p (Py.lower k)) (header_keys header) = [].
Proof.
  intros H. destruct (filter _ _) as [|k l] eqn:E; [reflexivity|]. exfalso.
  assert (I : In k (filter (fun k => p (Py.lower k)) (header_keys header)))
    by (rewrite E; left; reflexivity).
  apply filter_In in I. destruct I as [I Hp].
  apply H. exists k. split; [apply in_header_keys; exact I | exact Hp].
Qed.

(** The lookup of a survey column: the first key that [p] accepts. *)
Definition lookup_key (p : string -> bool) (r : row) : result string :=
  l <- keys_where p (keys r) ;; first l.

Lemma lookup_key_reader_row (p : string -> bool) (header cells : list string) :
  length cells <= length header ->
  ((~ has_column p header ->
      lookup_key p (dict_reader_row header cells) = Raise IndexError) /\
   (exists k, lookup_key p (dict_reader_row header cells) = Ok k)) \/
  lookup_key p (dict_reader_row header cells) = Raise IndexError.
Proof.
  intros H. unfold lookup_key.
  rewrite (keys_reader_row header cells H), keys_where_strings. cbn [bind].
  destruct (filter _ (header_keys header)) as [|k l] eqn:E.
  - right. reflexivity.
  - left. split; [|exists k; reflexivity].
    intros C. rewrite (no_column_no_key p header C) in E. discriminate E.
Qed.

Lemma survey_entry_missing_column (header cells : list string) :
  length cells <= length header ->
  ~ has_column is_model_header header \/
  ~ has_column is_major_header header \/
  ~ has_column is_activity_header header \/
  ~ has_column is_program_list_header header ->
  survey_entry (dict_reader_row header cells) = Raise IndexError.
Proof.
  intros H Hc. unfold survey_entry.
  fold (lookup_key is_model_header (dict_reader_row header cells)).
  fold (lookup_key is_major_header (dict_reader_row header cells)).
  fold (lookup_key is_activity_header (dict_reader_row header cells)).
  fold (lookup_key is_program_list_header (dict_reader_row header cells)).
  destruct (lookup_key_reader_row is_model_header header cells H)
    as [[N1 [k1 E1]] | E1]; rewrite E1; [|reflexivity].
  destruct (lookup_key_reader_row is_major_header header cells H)
    as [[N2 [k2 E2]] | E2]; rewrite E2; [|reflexivity].
  destruct (lookup_key_reader_row is_activity_header header cells H)
    as [[N3 [k3 E3]] | E3]; rewrite E3; [|reflexivity].
  destruct (lookup_key_reader_row is_program_list_header header cells H)
    as [[N4 [k4 E4]] | E4]; rewrite E4; [|reflexivity].
  exfalso.
  destruct Hc as [C | [C | [C | C]]];
    [rewrite (N1 C) in E1 | rewrite (N2 C) in E2
     | rewrite (N3 C) in E3 | rewrite (N4 C) in E4]; discriminate.
Qed.

(** A row with more cells than the header has the key [None], and the scan
    of its keys ends in an [AttributeError], whatever the header. *)
Lemma survey_entry_surplus_cells (header cells : list string) :
  length header < length cells ->
  survey_entry (dict_reader_row header cells) = Raise AttributeError.
Proof.
  intros H. unfold survey_entry.
  assert (E : forall p, keys_where p (keys (dict_reader_row header cells))
                        = Raise AttributeError).
  { intros p. unfold keys. rewrite restkey_reader_row.
    replace (Nat.ltb (length header) (length cells)) with true
      by (symmetry; apply Nat.ltb_lt; exact H).
    induction (fields (dict_reader_row header cells)) as [|kv d IH]; simpl.
    - reflexivity.
    - rewrite IH. reflexivity. }
  rewrite E. reflexivity.
Qed.

(** C8, as stated, fails: with a header that lacks the activities column
    and a first record that has more cells than the header, the run ends in
    an [AttributeError], on the key [None] of the surplus cells, and not in
    an out-of-range error. *)
Lemma missing_survey_column_with_surplus_cells :
  ~ has_column is_activity_header ["Timestamp"; "Laptop model"; "Major"] /\
  main (dataset [["model_name"; "ram(GB)"]; ["Aspire 5"; "8"]]
                [["Timestamp"; "Laptop model"; "Major"];
                 ["1 May"; "Aspire 5"; "CS"; "thanks"]])
  = mkRun (Raise AttributeError) []
          (dataset [["model_name"; "ram(GB)"]; ["Aspire 5"; "8"]]
                   [["Timestamp"; "Laptop model"; "Major"];
                    ["1 May"; "Aspire 5"; "CS"; "thanks"]]) /\
  Raise (A := unit) AttributeError <> Raise IndexError.
Proof.
  split; [|split].
  - intros [k [[<- | [<- | [<- | []]]] H]]; discriminate H.
  - vm_compute. reflexivity.
  - discriminate.
Qed.

(** C8, amended.  When both input files exist and the survey file is
    readable, if the header of the survey lacks a column whose lowered name
    contains "laptop model", or "major", or "activities", or both
    "specialized software" and "list", then the first record of the survey
    ends the run in an uncaught error: an [IndexError] when that record has
    no more cells than the header, an [AttributeError] when it has more.
    Nothing is printed and no file is written. *)
Theorem main_aborts_on_missing_survey_column :
  forall (fs : filesystem) (laptop : file)
         (header : list string) (body : list (list string))
         (cells : list string) (more : list (list string)),
    fs laptop_file = Some laptop ->
    fs survey_file = Some (Readable (header :: body)) ->
    data_lines body = cells :: more ->
    ~ has_column is_model_header header \/
    ~ has_column is_major_header header \/
    ~ has_column is_activity_header header \/
    ~ has_column is_program_list_header header ->
    main fs =
    mkRun (Raise (if Nat.ltb (length header) (length cells)
                  then AttributeError else IndexError)) [] fs.
Proof.
  intros fs laptop header body cells more Hl Hs Hd Hc.
  unfold main, path_exists. rewrite Hl, Hs. cbn [negb].
  unfold read_survey, read_file. rewrite Hs. cbn [bind].
  unfold dict_reader. rewrite Hd. cbn [map mapM].
  destruct (Nat.ltb (length header) (length cells)) eqn:E.
  - apply Nat.ltb_lt in E.
    rewrite (survey_entry_surplus_cells header cells E). reflexivity.
  - apply Nat.ltb_ge in E.
    rewrite (survey_entry_missing_column header cells E Hc). reflexivity.
Qed.

Lemma main_aborts_on_missing_survey_column_witness :
  main (dataset [["model_name"; "ram(GB)"]; ["Aspire 5"; "8"]]
                [["Timestamp"; "Laptop model"; "Major"]; ["1 May"; "Aspire 5"; "CS"]])
  = mkRun (Raise IndexError) []
          (dataset [["model_name"; "ram(GB)"]; ["Aspire 5"; "8"]]
                   [["Timestamp"; "Laptop model"; "Major"]; ["1 May"; "Aspire 5"; "CS"]]).
Proof.
  apply (main_aborts_on_missing_survey_column
           (dataset [["model_name"; "ram(GB)"]; ["Aspire 5"; "8"]]
                    [["Timestamp"; "Laptop model"; "Major"]; ["1 May"; "Aspire 5"; "CS"]])
           (Readable [["model_name"; "ram(GB)"]; ["Aspire 5"; "8"]])
           ["Timestamp"; "Laptop model"; "Major"]
           [["1 May"; "Aspire 5"; "CS"]]
           ["1 May"; "Aspire 5"; "CS"] []).
  - reflexivity.
  - reflexivity.
  - reflexivity.
  - right. right. left. intros [k [[<- | [<- | [<- | []]]] H]]; discriminate H.
Defined.

(** The same with a first record that has more cells than the header: the
    run ends before any output as well, in an [AttributeError]. *)
Lemma main_aborts_on_surplus_survey_cells
      (fs : filesystem) (laptop : file) (header : list string)
      (body : list (list string)) (cells : list string) (more : list (list string)) :
  fs laptop_file = Some laptop ->
  fs survey_file = Some (Readable (header :: body)) ->
  data_lines body = cells :: more ->
  length header < length cells ->
  main fs = mkRun (Raise AttributeError) [] fs.
Proof.
  intros Hl Hs Hd Hlen.
  unfold main, path_exists. rewrite Hl, Hs. cbn [negb].
  unfold read_survey, read_file. rewrite Hs. cbn [bind].
  unfold dict_reader. rewrite Hd. cbn [map mapM].
  rewrite (survey_entry_surplus_cells header cells Hlen). reflexivity.
Qed.

Definition analyzing (file_path : string) : string :=
  "Analyzing " ++ file_path ++ "...".

Lemma analyze_missing_returns (fs : filesystem) (file_path : string) :
  outcome (analyze_missing fs file_path) = Ok tt /\
  files (analyze_missing fs file_path) = fs.
Proof.
  unfold analyze_missing.
  destruct (analyze_body fs file_path) as [printed [[]|e]]; [split; reflexivity|].
  destruct e; split; reflexivity.
Qed.

(** C9.  With an input file missing, [main] prints that the file was not
    found and returns, leaving the files as they are (no output file is
    written).  [analyze_missing] always returns, leaving the files as they
    are: on a missing file it prints that the file was not found, and on a
    file it cannot open or decode it prints the error. *)
Theorem missing_input_is_reported :
  (forall fs : filesystem,
     fs laptop_file = None \/ fs survey_file = None ->
     exists path,
       (path = laptop_file \/ path = survey_file) /\ fs path = None /\
       main fs = mkRun (Ok tt) ["Error: " ++ path ++ " not found."] fs) /\
  (forall (fs : filesystem) (file_path : string),
     outcome (analyze_missing fs file_path) = Ok tt /\
     files (analyze_missing fs file_path) = fs) /\
  (forall (fs : filesystem) (file_path : string),
     fs file_path = None ->
     stdout (analyze_missing fs file_path) =
       [analyzing file_path; "File not found: " ++ file_path]) /\
  (forall (fs : filesystem) (file_path msg : string),
     fs file_path = Some (Unreadable msg) ->
     stdout (analyze_missing fs file_path) =
       [analyzing file_path; "Error: " ++ msg]).
Proof.
  split; [|split; [|split]].
  - intros fs H. unfold main, path_exists.
    destruct (fs laptop_file) as [f|] eqn:El.
    + destruct H as [H | H]; [discriminate H|].
      exists survey_file. rewrite H. cbn [negb].
      split; [right; reflexivity | split; reflexivity].
    + exists laptop_file. rewrite El. cbn [negb].
      split; [left; reflexivity | split; reflexivity].
  - apply analyze_missing_returns.
  - intros fs file_path H. unfold analyze_missing, analyze_body, read_file.
    rewrite H. reflexivity.
  - intros fs file_path msg H. unfold analyze_missing, analyze_body, read_file.
    rewrite H. reflexivity.
Qed.

Lemma missing_input_is_reported_witness :
  main (fun p => if String.eqb p laptop_file then Some (Readable []) else None)
  = mkRun (Ok tt) ["Error: " ++ survey_file ++ " not found."]
          (fun p => if String.eqb p laptop_file then Some (Readable []) else None).
Proof.
  destruct (proj1 missing_input_is_reported
              (fun p => if String.eqb p laptop_file then Some (Readable []) else None))
    as [path [Hp [Hn Hm]]].
  - right. reflexivity.
  - destruct Hp as [-> | ->]; [discriminate Hn | exact Hm].
Defined.

(** ** analyze_missing: the counts *)




















Lemma mem_iff (x : string) (l : list string) : Py.mem x l = true <-> In x l.
Proof.
  unfold Py.mem. rewrite existsb_exists. split.
  - intros [y [Hy E]]. apply String.eqb_eq in E. subst y. exact Hy.
  - intros H. exists x. split; [exact H | apply String.eqb_refl].
Qed.

(** What counts as missing: [None], or a text that, stripped and lowered, is
    one of "nan", "none", "null", "missing" and the empty string. *)
Lemma is_missing_iff (v : value) :
  is_missing v = true <->
  v = VNone \/ exists s, v = VStr s /\ In (Py.lower (Py.strip s)) missing_keywords.
Proof.
  destruct v as [|s|l]; cbn [is_missing].
  - split; [intros _; left; reflexivity | reflexivity].
  - rewrite mem_iff. split.
    + intros H. right. exists s. split; [reflexivity | exact H].
    + intros [H | [s' [H H']]]; [discriminate H|]. injection H as <-. exact H'.
  - split; [discriminate|]. intros [H | [s [H _]]]; discriminate H.
Qed.









(** ** The tiers of the classifier, the rule of the imputer *)

Inductive tier : Type := High | Mid | Low.

Definition bundle_of (t : tier) : Inferred.t :=
  match t with
  | High => high_spec
  | Mid => mid_spec
  | Low => low_spec
  end.

(** The RAM the classifier works with: the integer in the cell, and 0 when
    the column is missing or the text is no integer. *)
Definition ram_value (r : row) : Z :=
  match get r "ram(GB)" with
  | Some (Some s) => match Py.int s with Some n => n | None => 0%Z end
  | _ => 0%Z
  end.

(** The lowered text of a cell, empty when the column is missing. *)
Definition lowered (r : row) (k : string) : string :=
  match get r k with
  | Some (Some s) => Py.lower s
  | _ => ""
  end.

Definition high_condition (r : row) : Prop :=
  (16 <= ram_value r)%Z \/
  substring "rtx" (lowered r "graphics") \/
  substring "gtx" (lowered r "graphics") \/
  substring "radeon rx" (lowered r "graphics").

Lemma ram_of_value (r : row) : present r "ram(GB)" -> ram_of r = Ok (ram_value r).
Proof.
  unfold present, ram_of, ram_value.
  destruct (get r "ram(GB)") as [[s|]|]; intros H.
  - destruct (Py.int s); reflexivity.
  - exfalso. apply H. reflexivity.
  - reflexivity.
Qed.

Lemma get_lower_lowered (r : row) (k : string) :
  present r k -> get_lower r k = Ok (lowered r k).
Proof.
  unfold present, get_lower, lowered. destruct (get r k) as [[s|]|]; intros H.
  - reflexivity.
  - exfalso. apply H. reflexivity.
  - reflexivity.
Qed.

Lemma has_gpu_keyword_iff (gpu : string) :
  has_gpu_keyword gpu = true <->
  substring "rtx" gpu \/ substring "gtx" gpu \/ substring "radeon rx" gpu.
Proof.
  unfold has_gpu_keyword. rewrite !orb_true_iff, !contains_iff. tauto.
Qed.

(** On a record whose ram(GB), graphics and processor_name cells are not
    absent, the classifier returns the bundle of a tier: High exactly when
    the RAM is at least 16 or the lowered graphics text contains "rtx",
    "gtx" or "radeon rx"; Mid exactly when not so and the RAM is at least 8;
    Low otherwise.  A RAM text that is no integer counts as 0. *)
Theorem get_inferred_data_tier :
  forall r : row,
    present r "ram(GB)" -> present r "graphics" -> present r "processor_name" ->
    (forall s, get r "ram(GB)" = Some (Some s) -> Py.int s = None -> ram_value r = 0%Z) /\
    exists t,
      get_inferred_data r = Ok (bundle_of t) /\
      (t = High <-> high_condition r) /\
      (t = Mid <-> ~ high_condition r /\ (8 <= ram_value r)%Z) /\
      (t = Low <-> ~ high_condition r /\ (ram_value r < 8)%Z).
Proof.
  intros r Hr Hg Hp. split.
  { intros s Hs Hi. unfold ram_value. rewrite Hs, Hi. reflexivity. }
  unfold get_inferred_data.
  rewrite (ram_of_value r Hr), (get_lower_lowered r _ Hg), (get_lower_lowered r _ Hp).
  cbn [bind]. unfold high_condition.
  pose proof (has_gpu_keyword_iff (lowered r "graphics")) as G.
  destruct (has_gpu_keyword (lowered r "graphics")) eqn:Eg.
  - exists High. split; [destruct (16 <=? ram_value r)%Z; reflexivity|].
    assert (K : substring "rtx" (lowered r "graphics") \/
                substring "gtx" (lowered r "graphics") \/
                substring "radeon rx" (lowered r "graphics"))
      by (apply G; reflexivity).
    split; [|split]; split; try discriminate; try tauto.
  - assert (K : ~ (substring "rtx" (lowered r "graphics") \/
                   substring "gtx" (lowered r "graphics") \/
                   substring "radeon rx" (lowered r "graphics")))
      by (intros C; apply G in C; discriminate C).
    destruct (16 <=? ram_value r)%Z eqn:E16.
    + apply Z.leb_le in E16. exists High. split; [reflexivity|].
      split; [|split]; split; try discriminate; try tauto; intros [N _]; tauto.
    + apply Z.leb_gt in E16.
      destruct (8 <=? ram_value r)%Z eqn:E8.
      * apply Z.leb_le in E8. exists Mid. split; [reflexivity|].
        split; [|split]; split; try discriminate; try tauto.
        -- intros [C | C]; [lia | tauto].
        -- intros _. split; [intros [C | C]; [lia | tauto] | exact E8].
        -- intros [_ C]. lia.
      * apply Z.leb_gt in E8. exists Low. split; [reflexivity|].
        split; [|split]; split; try discriminate; try tauto.
        -- intros [C | C]; [lia | tauto].
        -- intros [_ C]. lia.
        -- intros _. split; [intros [C | C]; [lia | tauto] | exact E8].
Qed.

Lemma get_inferred_data_tier_witness :
  exists t,
    get_inferred_data (catalog_row "Nitro 5" "invalid" "Intel Core i5" "NVIDIA RTX 3060")
    = Ok (bundle_of t) /\ t = High.
Proof.
  destruct (get_inferred_data_tier
              (catalog_row "Nitro 5" "invalid" "Intel Core i5" "NVIDIA RTX 3060"))
    as [_ [t [E [Ht _]]]].
  - discriminate.
  - discriminate.
  - discriminate.
  - exists t. split; [exact E|]. apply Ht. right. left.
    exists "nvidia ", " 3060". reflexivity.
Defined.

(** The graphics cell is to be imputed: the column is missing, the cell is
    [None], or its text is empty or one of the sentinels. *)
Definition to_impute (r : row) (k : string) : Prop :=
  get r k = None \/ get r k = Some None \/
  exists s, get r k = Some (Some s) /\ In s sentinels.

Lemma needs_default_iff (r : row) (k : string) :
  needs_default r k = true <-> to_impute r k.
Proof.
  unfold needs_default, to_impute, truthy.
  destruct (get r k) as [[s|]|].
  - rewrite orb_true_iff, negb_true_iff, mem_iff. split.
    + intros [H | H]; right; right; exists s; (split; [reflexivity|]); [|exact H].
      destruct s; [|discriminate H]. unfold sentinels. simpl. tauto.
    + intros [H | [H | [s' [H H']]]]; try discriminate H.
      injection H as <-. right. exact H'.
  - split; [intros _; right; left; reflexivity | reflexivity].
  - split; [intros _; left; reflexivity | reflexivity].
Qed.

(** On a record whose processor_name cell is not absent: graphics that are
    to be imputed become "Intel Integrated Graphics" when the lowered
    processor text contains "intel", else "AMD Radeon Graphics" when it
    contains "amd" or "ryzen", else "Integrated Graphics" (a missing
    processor column counts as the empty text); other graphics are kept. *)
Theorem impute_graphics_rule :
  forall r : row,
    present r "processor_name" ->
    (~ to_impute r "graphics" -> impute_graphics r = Ok r) /\
    (to_impute r "graphics" ->
     exists g,
       impute_graphics r = Ok (set r "graphics" (Some g)) /\
       (substring "intel" (lowered r "processor_name") ->
          g = "Intel Integrated Graphics") /\
       (~ substring "intel" (lowered r "processor_name") ->
        substring "amd" (lowered r "processor_name") \/
        substring "ryzen" (lowered r "processor_name") ->
          g = "AMD Radeon Graphics") /\
       (~ substring "intel" (lowered r "processor_name") ->
        ~ substring "amd" (lowered r "processor_name") ->
        ~ substring "ryzen" (lowered r "processor_name") ->
          g = "Integrated Graphics")).
Proof.
  intros r Hp. unfold impute_graphics. split.
  - intros H. destruct (needs_default r "graphics") eqn:E; [|reflexivity].
    exfalso. apply H. apply needs_default_iff. exact E.
  - intros H. apply needs_default_iff in H. rewrite H.
    rewrite (get_lower_lowered r _ Hp). cbn [bind].
    set (proc := lowered r "processor_name").
    pose proof (contains_iff "intel" proc) as Ci.
    pose proof (contains_iff "amd" proc) as Ca.
    pose proof (contains_iff "ryzen" proc) as Cr.
    destruct (Py.contains "intel" proc);
      [|destruct (Py.contains "amd" proc); [|destruct (Py.contains "ryzen" proc)]];
      cbn [orb]; eexists; (split; [reflexivity|]);
      (split; [|split]); intros; try reflexivity; exfalso; intuition congruence.
Qed.

Lemma impute_graphics_rule_witness :
  exists g,
    impute_graphics (catalog_row "Aspire 5" "8" "Intel Core i5" "")
    = Ok (set (catalog_row "Aspire 5" "8" "Intel Core i5" "") "graphics" (Some g)) /\
    g = "Intel Integrated Graphics".
Proof.
  destruct (proj2 (impute_graphics_rule
                     (catalog_row "Aspire 5" "8" "Intel Core i5" "")
                     ltac:(discriminate)))
    as [g [E [Hi _]]].
  - right. right. exists "". split; [reflexivity|]. simpl. tauto.
  - exists g. split; [exact E|]. apply Hi.
    exists "", " core i5". reflexivity.
Defined.

(** ** The other two imputations, the output file *)

(** A screen size or a resolution that is to be imputed gets the default;
    any other is kept, and so is every other column. *)
Theorem impute_default_rule :
  forall (k v : string) (r : row),
    (to_impute r k -> get (impute_default k v r) k = Some (Some v)) /\
    (~ to_impute r k -> impute_default k v r = r) /\
    (forall k', k' <> k -> get (impute_default k v r) k' = get r k').
Proof.
  intros k v r. unfold impute_default. split; [|split].
  - intros H. apply needs_default_iff in H. rewrite H.
    rewrite get_set, String.eqb_refl. reflexivity.
  - intros H. destruct (needs_default r k) eqn:E; [|reflexivity].
    exfalso. apply H. apply needs_default_iff. exact E.
  - intros k' H. destruct (needs_default r k); [|reflexivity].
    apply get_set_other. exact H.
Qed.

(** A catalog of one laptop with 16 GB and no graphics, and a survey without
    a matching answer: the run writes the header with the three new columns
    and the record with the imputed graphics and the high bundle. *)
Example main_merges_unmatched_laptop :
  let laptop :=
    [["model_name"; "ram(GB)"; "processor_name"; "graphics";
      "screen_size(inches)"; "resolution (pixels)"];
     ["Legion 5"; "16"; "AMD Ryzen 7"; ""; "NULL"; "1920 x 1080"]] in
  let survey := [survey_header;
                 ["1 May"; "Software Engineering"; "MacBook Pro"; "Coding"; "Xcode"]] in
  outcome (main (dataset laptop survey)) = Ok tt /\
  stdout (main (dataset laptop survey)) =
    ["Successfully merged data to dataset/merged_laptop_data_cleaned.csv"] /\
  files (main (dataset laptop survey)) output_file =
    Some (Readable
      [["model_name"; "ram(GB)"; "processor_name"; "graphics";
        "screen_size(inches)"; "resolution (pixels)";
        "Major"; "Activities"; "ProgramList"];
       ["Legion 5"; "16"; "AMD Ryzen 7"; "AMD Radeon Graphics"; "15.6"; "1920 x 1080";
        Inferred.Major high_spec; Inferred.Activities high_spec;
        Inferred.ProgramList high_spec]]).
Proof. repeat split; vm_compute; reflexivity. Qed.

(** The output file is not written all or nothing: a catalog record with
    more cells than the header reaches the writer with the key [None], the
    writer raises a [ValueError] on it, and the header and the records
    before it are in the file by then. *)
Theorem main_leaves_partial_output :
  let laptop :=
    [["model_name"; "ram(GB)"; "processor_name"; "graphics";
      "screen_size(inches)"; "resolution (pixels)"];
     ["Swift 3"; "4"; "Intel Core i3"; "Intel UHD"; "14"; "1920 x 1080"];
     ["Aspire 5"; "8"; "Intel Core i5"; "Intel UHD"; "15.6"; "1920 x 1080"; "touch"];
     ["Legion 5"; "16"; "AMD Ryzen 7"; "RTX 3060"; "15.6"; "1920 x 1080"]] in
  outcome (main (dataset laptop [survey_header])) = Raise ValueError /\
  files (main (dataset laptop [survey_header])) output_file =
    Some (Readable
      [["model_name"; "ram(GB)"; "processor_name"; "graphics";
        "screen_size(inches)"; "resolution (pixels)";
        "Major"; "Activities"; "ProgramList"];
       ["Swift 3"; "4"; "Intel Core i3"; "Intel UHD"; "14"; "1920 x 1080";
        Inferred.Major low_spec; Inferred.Activities low_spec;
        Inferred.ProgramList low_spec]]).
Proof. split; vm_compute; reflexivity. Qed.

(* ================================================================= *)
(** * Further properties of the two scripts *)

(** ** The reading of the survey *)

(** The first column of the header that [p] accepts, on its lowered name. *)
Definition first_column (p : string -> bool) (header : list string) : option string :=
  find (fun k => p (Py.lower k)) header.

Lemma add_key_cases (ks : list string) (k : string) :
  (In k ks /\ add_key ks k = ks) \/ (~ In k ks /\ add_key ks k = (ks ++ [k])%list).
Proof.
  induction ks as [|k0 ks IH]; simpl.
  - right. split; [intros [] | reflexivity].
  - destruct (String.eqb k0 k) eqn:E.
    + apply String.eqb_eq in E. left. split; [left; exact E | reflexivity].
    + apply String.eqb_neq in E. destruct IH as [[Hi ->] | [Hn ->]].
      * left. split; [right; exact Hi | reflexivity].
      * right. split; [intros [C | C]; [exact (E C) | exact (Hn C)] | reflexivity].
Qed.

Lemma filter_none_in (q : string -> bool) (ks : list string) (k : string) :
  filter q ks = [] -> In k ks -> q k = false.
Proof.
  intros Hf Hk. destruct (q k) eqn:E; [|reflexivity].
  assert (I : In k (filter q ks)) by (apply filter_In; split; assumption).
  rewrite Hf in I. destruct I.
Qed.

Lemma first_of_fold_add_key (q : string -> bool) (h acc : list string) :
  hd_error (filter q (fold_left add_key h acc)) =
  match hd_error (filter q acc) with
  | Some k => Some k
  | None => find q h
  end.
Proof.
  revert acc. induction h as [|k h IH]; intros acc; simpl.
  - destruct (hd_error (filter q acc)); reflexivity.
  - rewrite IH. destruct (add_key_cases acc k) as [[Hi ->] | [Hn ->]].
    + destruct (filter q acc) as [|x l] eqn:Ef; [|reflexivity]. simpl.
      rewrite (filter_none_in q acc k Ef Hi). reflexivity.
    + rewrite filter_app. simpl.
      destruct (filter q acc) as [|x l]; [|reflexivity].
      simpl. destruct (q k); reflexivity.
Qed.

Lemma first_of_header_keys (q : string -> bool) (header : list string) :
  hd_error (filter q (header_keys header)) = find q header.
Proof. unfold header_keys. rewrite first_of_fold_add_key. reflexivity. Qed.

Lemma has_column_first (p : string -> bool) (header : list string) :
  has_column p header <-> exists k, first_column p header = Some k.
Proof.
  unfold has_column, first_column. split.
  - intros [k [Hk Hp]].
    destruct (find (fun k => p (Py.lower k)) header) as [k'|] eqn:E.
    + exists k'. reflexivity.
    + exfalso. pose proof (find_none _ _ E k Hk) as C. simpl in C. congruence.
  - intros [k E]. apply find_some in E. exists k. exact E.
Qed.

Lemma dict_get_in_dkeys (d : dict) (k : string) :
  In k (dkeys d) <-> dict_get d k <> None.
Proof.
  induction d as [|[k0 c0] d IH]; simpl.
  - split; [intros [] | intros H; apply H; reflexivity].
  - destruct (String.eqb k0 k) eqn:E.
    + apply String.eqb_eq in E. split; [discriminate | intros _; left; exact E].
    + apply String.eqb_neq in E. rewrite <- IH. split.
      * intros [C | C]; [contradiction | exact C].
      * intros C. right. exact C.
Qed.

Lemma lookup_key_first (p : string -> bool) (header cells : list string) (k : string) :
  length cells <= length header ->
  first_column p header = Some k ->
  lookup_key p (dict_reader_row header cells) = Ok k /\
  exists c, item (dict_reader_row header cells) k = Ok c /\
            get (dict_reader_row header cells) k = Some c.
Proof.
  intros H Hk. unfold lookup_key.
  rewrite (keys_reader_row header cells H), keys_where_strings. cbn [bind].
  pose proof (first_of_header_keys (fun k => p (Py.lower k)) header) as F.
  unfold first_column in Hk. rewrite Hk in F.
  destruct (filter _ (header_keys header)) as [|k' l] eqn:E; [discriminate F|].
  injection F as ->. split; [reflexivity|].
  assert (I : In k (header_keys header)).
  { assert (I : In k (filter (fun k => p (Py.lower k)) (header_keys header)))
      by (rewrite E; left; reflexivity).
    apply filter_In in I. exact (proj1 I). }
  rewrite <- (dkeys_reader_row header cells) in I.
  apply dict_get_in_dkeys in I. unfold item, get.
  destruct (dict_get (fields (dict_reader_row header cells)) k) as [c|];
    [|exfalso; apply I; reflexivity].
  exists c. split; reflexivity.
Qed.

(** A survey record with no more cells than the header, in a file whose
    header has the four columns, is read without an error: the entry takes
    its model, major, activities and software list from the first column,
    in the order of the header, whose lowered name contains "laptop model",
    "major", "activities", and both "specialized software" and "list"; the
    model is normalized, the other three cells are taken as they are, a
    [None] of a short record included. *)
Theorem survey_entry_reads_first_columns :
  forall (header cells : list string) (km kj ka kp : string),
    length cells <= length header ->
    first_column is_model_header header = Some km ->
    first_column is_major_header header = Some kj ->
    first_column is_activity_header header = Some ka ->
    first_column is_program_list_header header = Some kp ->
    exists model major activities program_list,
      get (dict_reader_row header cells) km = Some model /\
      get (dict_reader_row header cells) kj = Some major /\
      get (dict_reader_row header cells) ka = Some activities /\
      get (dict_reader_row header cells) kp = Some program_list /\
      survey_entry (dict_reader_row header cells) =
        Ok (Survey.Build (normalize_name model) major activities program_list).
Proof.
  intros header cells km kj ka kp H Hm Hj Ha Hp.
  destruct (lookup_key_first _ header cells km H Hm) as [L1 [c1 [I1 G1]]].
  destruct (lookup_key_first _ header cells kj H Hj) as [L2 [c2 [I2 G2]]].
  destruct (lookup_key_first _ header cells ka H Ha) as [L3 [c3 [I3 G3]]].
  destruct (lookup_key_first _ header cells kp H Hp) as [L4 [c4 [I4 G4]]].
  exists c1, c2, c3, c4. repeat (split; [assumption|]).
  unfold survey_entry.
  fold (lookup_key is_model_header (dict_reader_row header cells)).
  fold (lookup_key is_major_header (dict_reader_row header cells)).
  fold (lookup_key is_activity_header (dict_reader_row header cells)).
  fold (lookup_key is_program_list_header (dict_reader_row header cells)).
  rewrite L1, L2, L3, L4. cbn [bind]. rewrite I1, I2, I3, I4. reflexivity.
Qed.

Lemma survey_entry_reads_first_columns_witness :
  survey_entry
    (dict_reader_row survey_header ["1 May"; "Software Engineering"; "Dell XPS-13"])
  = Ok (Survey.Build "dellxps13" (Some "Software Engineering") None None).
Proof.
  destruct (survey_entry_reads_first_columns
              survey_header ["1 May"; "Software Engineering"; "Dell XPS-13"]
              "What is the laptop model you primarily use for your studies?(You can find your pc model in your system settings)"
              "What is your major?"
              "Which activities do you use your laptop for?"
              "If you use specialized software, please list them")
    as [c1 [c2 [c3 [c4 [G1 [G2 [G3 [G4 E]]]]]]]].
  - simpl. lia.
  - reflexivity.
  - reflexivity.
  - reflexivity.
  - reflexivity.
  - rewrite E. vm_compute in G1, G2, G3, G4.
    injection G1 as <-. injection G2 as <-. injection G3 as <-. injection G4 as <-.
    reflexivity.
Defined.

(** A survey file the loop reads to its end: a file without a header, or a
    header with the four columns and no record longer than the header. *)
Definition survey_well_formed (lines : list (list string)) : Prop :=
  match lines with
  | [] => True
  | header :: body =>
      (forall cells, In cells (data_lines body) -> length cells <= length header) /\
      has_column is_model_header header /\
      has_column is_major_header header /\
      has_column is_activity_header header /\
      has_column is_program_list_header header
  end.

Lemma mapM_total {A B : Type} (f : A -> result B) (l : list A) :
  (forall a, In a l -> exists b, f a = Ok b) ->
  exists bs, mapM f l = Ok bs /\ length bs = length l /\
             Forall2 (fun a b => f a = Ok b) l bs.
Proof.
  induction l as [|a l IH]; intros H.
  - exists []. repeat split. constructor.
  - destruct (H a (or_introl eq_refl)) as [b Hb].
    destruct IH as [bs [E [Hl HF]]]; [intros x Hx; apply H; right; exact Hx|].
    exists (b :: bs). cbn [mapM]. rewrite Hb. cbn [bind]. rewrite E. cbn [bind].
    split; [reflexivity|]. split; [simpl; rewrite Hl; reflexivity|].
    constructor; assumption.
Qed.

Lemma read_survey_well_formed (fs : filesystem) (lines : list (list string)) :
  fs survey_file = Some (Readable lines) ->
  survey_well_formed lines ->
  exists survey_data, read_survey fs = Ok survey_data.
Proof.
  intros Hf Hw. unfold read_survey, read_file. rewrite Hf. cbn [bind].
  destruct lines as [|header body]; [exists []; reflexivity|].
  destruct Hw as [Hlen [H1 [H2 [H3 H4]]]].
  apply has_column_first in H1, H2, H3, H4.
  destruct H1 as [km H1], H2 as [kj H2], H3 as [ka H3], H4 as [kp H4].
  destruct (mapM_total survey_entry (dict_reader (header :: body))) as [sd [E _]].
  - intros r Hr. unfold dict_reader in Hr. apply in_map_iff in Hr.
    destruct Hr as [cells [<- Hc]].
    destruct (survey_entry_reads_first_columns header cells km kj ka kp
                (Hlen cells Hc) H1 H2 H3 H4)
      as [c1 [c2 [c3 [c4 [_ [_ [_ [_ E]]]]]]]].
    eexists. exact E.
  - exists sd. exact E.
Qed.

(** ** What a processed record holds *)

Lemma dkeys_set_row (r : row) (k : string) (v : cell) :
  dkeys (fields (set r k v)) = add_key (dkeys (fields r)) k.
Proof. apply dkeys_set. Qed.

Lemma in_dkeys_set (r : row) (k : string) (v : cell) (k' : string) :
  In k' (dkeys (fields (set r k v))) <-> k' = k \/ In k' (dkeys (fields r)).
Proof. rewrite dkeys_set_row. apply in_add_key. Qed.

(** The three columns the imputer fills. *)
Definition hardware_columns : list string :=
  ["graphics"; "screen_size(inches)"; "resolution (pixels)"].

(** The three columns the merge adds. *)
Definition derived_columns : list string := ["Major"; "Activities"; "ProgramList"].

(** [r'] is [r] with some columns of [ks] set: the other cells and the
    surplus cells are those of [r], and its keys are those of [r] and some
    of [ks]. *)
Definition updates (ks : list string) (r r' : row) : Prop :=
  restkey r' = restkey r /\
  (forall k, ~ In k ks -> get r' k = get r k) /\
  (forall k, In k (dkeys (fields r)) -> In k (dkeys (fields r'))) /\
  (forall k, In k (dkeys (fields r')) -> In k (dkeys (fields r)) \/ In k ks).

Lemma updates_refl (ks : list string) (r : row) : updates ks r r.
Proof. repeat split; auto. Qed.

Lemma updates_set (ks : list string) (r r' : row) (k : string) (v : cell) :
  In k ks -> updates ks r r' -> updates ks r (set r' k v).
Proof.
  intros Hk [H1 [H2 [H3 H4]]]. split; [exact H1|]. split; [|split].
  - intros k' Hk'. rewrite get_set_other; [apply H2; exact Hk'|].
    intros ->. exact (Hk' Hk).
  - intros k' Hk'. apply in_dkeys_set. right. apply H3. exact Hk'.
  - intros k' Hk'. apply in_dkeys_set in Hk'. destruct Hk' as [-> | Hk'].
    + right. exact Hk.
    + apply H4. exact Hk'.
Qed.

Lemma updates_weaken (ks ks' : list string) (r r' : row) :
  incl ks ks' -> updates ks r r' -> updates ks' r r'.
Proof.
  intros Hi [H1 [H2 [H3 H4]]]. split; [exact H1|]. split; [|split].
  - intros k Hk. apply H2. intros C. apply Hk. apply Hi. exact C.
  - exact H3.
  - intros k Hk. destruct (H4 k Hk) as [C | C]; [left; exact C | right; apply Hi; exact C].
Qed.

Lemma updates_trans (ks : list string) (r r' r'' : row) :
  updates ks r r' -> updates ks r' r'' -> updates ks r r''.
Proof.
  intros [A1 [A2 [A3 A4]]] [B1 [B2 [B3 B4]]]. split; [congruence|]. split; [|split].
  - intros k Hk. rewrite (B2 k Hk). apply A2. exact Hk.
  - intros k Hk. apply B3. apply A3. exact Hk.
  - intros k Hk. destruct (B4 k Hk) as [C | C]; [apply A4; exact C | right; exact C].
Qed.

(** A cell is filled: it holds a text that is not empty and is none of the
    sentinels of the imputer. *)
Definition filled (r : row) (k : string) : Prop :=
  exists s, get r k = Some (Some s) /\ s <> "" /\ ~ In s sentinels.

Lemma filled_iff (r : row) (k : string) : filled r k <-> needs_default r k = false.
Proof.
  unfold filled, needs_default, truthy. destruct (get r k) as [[s|]|].
  - rewrite orb_false_iff, negb_false_iff. split.
    + intros [s' [E [Hn Hs]]]. injection E as <-. split.
      * destruct s; [contradiction | reflexivity].
      * destruct (Py.mem s sentinels) eqn:M; [|reflexivity].
        apply mem_iff in M. contradiction.
    + intros [Hn Hs]. exists s. split; [reflexivity|]. split.
      * destruct s; [discriminate Hn | discriminate].
      * intros C. apply mem_iff in C. congruence.
  - split; [intros [s [E _]]; discriminate E | discriminate].
  - split; [intros [s [E _]]; discriminate E | discriminate].
Qed.

Lemma filled_set (r : row) (k v : string) :
  v <> "" -> ~ In v sentinels -> filled (set r k (Some v)) k.
Proof.
  intros H1 H2. exists v. rewrite get_set, String.eqb_refl. auto.
Qed.

Lemma filled_frame (r r' : row) (k : string) :
  get r' k = get r k -> filled r k -> filled r' k.
Proof. intros E [s H]. exists s. rewrite E. exact H. Qed.

Lemma not_sentinel (v : string) : Py.mem v sentinels = false -> ~ In v sentinels.
Proof. intros H C. apply mem_iff in C. congruence. Qed.

Lemma impute_graphics_inv (r r1 : row) :
  impute_graphics r = Ok r1 ->
  updates hardware_columns r r1 /\ filled r1 "graphics".
Proof.
  unfold impute_graphics. destruct (needs_default r "graphics") eqn:E.
  - destruct (get_lower r "processor_name") as [proc|e]; [|discriminate].
    cbn [bind].
    destruct (Py.contains "intel" proc);
      [|destruct (Py.contains "amd" proc || Py.contains "ryzen" proc)];
      intros H; injection H as <-;
      (split; [apply updates_set; [left; reflexivity | apply updates_refl]
              | apply filled_set; [discriminate | apply not_sentinel; reflexivity]]).
  - intros H. injection H as <-. split; [apply updates_refl|].
    apply filled_iff. exact E.
Qed.

Lemma impute_default_inv (k v : string) (r : row) :
  In k hardware_columns -> v <> "" -> ~ In v sentinels ->
  updates hardware_columns r (impute_default k v r) /\
  filled (impute_default k v r) k.
Proof.
  intros Hk H1 H2. unfold impute_default.
  destruct (needs_default r k) eqn:E.
  - split; [apply updates_set; [exact Hk | apply updates_refl]
           | apply filled_set; assumption].
  - split; [apply updates_refl | apply filled_iff; exact E].
Qed.

(** The imputer, when it returns, has set hardware columns only, and the
    three of them are filled. *)
Lemma impute_inv (r r3 : row) :
  impute r = Ok r3 ->
  updates hardware_columns r r3 /\
  filled r3 "graphics" /\ filled r3 "screen_size(inches)" /\
  filled r3 "resolution (pixels)".
Proof.
  unfold impute. destruct (impute_graphics r) as [r1|e] eqn:E; [|discriminate].
  cbn [bind]. intros H. injection H as <-.
  destruct (impute_graphics_inv r r1 E) as [U1 F1].
  destruct (impute_default_inv "screen_size(inches)" "15.6" r1) as [U2 F2];
    [right; left; reflexivity | discriminate | apply not_sentinel; reflexivity |].
  destruct (impute_default_inv "resolution (pixels)" "1920 x 1080"
              (impute_default "screen_size(inches)" "15.6" r1)) as [U3 F3];
    [right; right; left; reflexivity | discriminate | apply not_sentinel; reflexivity |].
  split; [exact (updates_trans _ _ _ _ (updates_trans _ _ _ _ U1 U2) U3)|].
  split; [|split; [|exact F3]].
  - apply (filled_frame r1); [|exact F1].
    rewrite !impute_default_frame by discriminate. reflexivity.
  - apply (filled_frame (impute_default "screen_size(inches)" "15.6" r1));
      [|exact F2].
    rewrite impute_default_frame by discriminate. reflexivity.
Qed.

Lemma updates_copy_fields (r : row) (m : Survey.t) :
  updates derived_columns r (copy_fields r m).
Proof.
  unfold copy_fields.
  apply updates_set; [right; right; left; reflexivity|].
  apply updates_set; [right; left; reflexivity|].
  apply updates_set; [left; reflexivity|]. apply updates_refl.
Qed.

Lemma updates_infer_fields (r : row) (i : Inferred.t) :
  updates derived_columns r (infer_fields r i).
Proof.
  unfold infer_fields.
  apply updates_set; [right; right; left; reflexivity|].
  apply updates_set; [right; left; reflexivity|].
  apply updates_set; [left; reflexivity|]. apply updates_refl.
Qed.

Lemma merge_fields_inv (r r' : row) (found : option Survey.t) :
  merge_fields r found = Ok r' ->
  updates derived_columns r r' /\
  (forall k, In k derived_columns -> In k (dkeys (fields r'))).
Proof.
  unfold merge_fields. destruct found as [m|].
  - fold (copy_fields r m).
    assert (D : forall k, In k derived_columns -> In k (dkeys (fields (copy_fields r m)))).
    { intros k Hk. unfold copy_fields. rewrite !in_dkeys_set.
      destruct Hk as [<- | [<- | [<- | []]]]; auto. }
    destruct (program_list_missing (Survey.ProgramList m)).
    + destruct (get_inferred_data (copy_fields r m)) as [i|e]; [|discriminate].
      cbn [bind]. intros H. injection H as <-. split.
      * apply updates_set; [right; right; left; reflexivity | apply updates_copy_fields].
      * intros k Hk. apply in_dkeys_set. right. apply D. exact Hk.
    + intros H. injection H as <-. split; [apply updates_copy_fields | exact D].
  - destruct (get_inferred_data r) as [i|e]; [|discriminate].
    cbn [bind]. fold (infer_fields r i). intros H. injection H as <-.
    split; [apply updates_infer_fields|].
    intros k Hk. unfold infer_fields. rewrite !in_dkeys_set.
    destruct Hk as [<- | [<- | [<- | []]]]; auto.
Qed.

Lemma process_row_inv (survey_data : list Survey.t) (r r' : row) :
  process_row survey_data r = Ok r' ->
  exists name r3,
    get r "model_name" = Some name /\
    impute r = Ok r3 /\
    merge_fields r3 (find_match survey_data (normalize_name name)) = Ok r'.
Proof.
  rewrite process_row_eq. unfold model_name.
  destruct (get r "model_name") as [name|]; [|discriminate]. cbn [bind].
  destruct (impute r) as [r3|e]; [|discriminate]. cbn [bind].
  intros H. exists name, r3. auto.
Qed.

(** Every record the loop produces has its graphics, screen size and
    resolution filled (a text that is not empty and none of "Missing",
    "NULL", "null", "None"), holds the three derived columns, and differs
    from the record read only in the three hardware and the three derived
    columns: every other cell, and the surplus cells, are as read. *)
Theorem processed_record_hardware_filled :
  forall (survey_data : list Survey.t) (r r' : row),
    process_row survey_data r = Ok r' ->
    filled r' "graphics" /\ filled r' "screen_size(inches)" /\
    filled r' "resolution (pixels)" /\
    (forall k, In k derived_columns -> get r' k <> None) /\
    (forall k, ~ In k hardware_columns -> ~ In k derived_columns ->
               get r' k = get r k) /\
    restkey r' = restkey r.
Proof.
  intros survey_data r r' H.
  destruct (process_row_inv survey_data r r' H) as [name [r3 [_ [Hi Hm]]]].
  destruct (impute_inv r r3 Hi) as [[U1 [U2 _]] [F1 [F2 F3]]].
  destruct (merge_fields_inv r3 r' _ Hm) as [[V1 [V2 _]] D].
  assert (G : forall k, In k hardware_columns -> get r' k = get r3 k).
  { intros k Hk. apply V2. intros C.
    destruct Hk as [<- | [<- | [<- | []]]];
      destruct C as [C | [C | [C | []]]]; discriminate C. }
  split; [apply (filled_frame r3); [apply G; left; reflexivity | exact F1]|].
  split; [apply (filled_frame r3);
          [apply G; right; left; reflexivity | exact F2]|].
  split; [apply (filled_frame r3);
          [apply G; right; right; left; reflexivity | exact F3]|].
  split; [intros k Hk; apply dict_get_in_dkeys; apply D; exact Hk|].
  split; [|congruence].
  intros k H1 H2. rewrite (V2 k H2). apply U2. exact H1.
Qed.

Lemma processed_record_hardware_filled_witness :
  exists r',
    process_row [] (catalog_row "Aspire 5" "8" "Intel Core i5" "NULL") = Ok r' /\
    filled r' "graphics" /\
    get r' "ram(GB)" = Some (Some "8").
Proof.
  assert (E : exists r', process_row [] (catalog_row "Aspire 5" "8" "Intel Core i5" "NULL")
                         = Ok r') by (eexists; vm_compute; reflexivity).
  destruct E as [r' E]. exists r'. split; [exact E|].
  destruct (processed_record_hardware_filled
              [] (catalog_row "Aspire 5" "8" "Intel Core i5" "NULL") r' E)
    as [F [_ [_ [_ [Hk _]]]]].
  split; [exact F|]. rewrite Hk.
  - reflexivity.
  - intros [C | [C | [C | []]]]; discriminate C.
  - intros [C | [C | [C | []]]]; discriminate C.
Defined.

(** ** Rows without absent cells *)

Lemma fold_set_text (l : list (string * string)) (d : dict) :
  (forall k, dict_get d k <> Some None) ->
  forall k,
    dict_get (fold_left (fun d kv => dict_set d (fst kv) (Some (snd kv))) l d) k
    <> Some None.
Proof.
  revert d. induction l as [|[k0 v0] l IH]; intros d H k; simpl; [apply H|].
  apply IH. intros k'. rewrite dict_get_set.
  destruct (String.eqb k0 k'); [discriminate | apply H].
Qed.

Lemma reader_row_fields_full (header cells : list string) :
  length header <= length cells ->
  fields (dict_reader_row header cells) = zip_dict header cells.
Proof.
  intros H. unfold dict_reader_row.
  destruct (Nat.ltb (length header) (length cells)); [reflexivity|].
  replace (Nat.ltb (length cells) (length header)) with false
    by (symmetry; apply Nat.ltb_ge; exact H).
  reflexivity.
Qed.

(** A row with at least as many cells as the header has no [None] cell. *)
Lemma reader_row_present (header cells : list string) (k : string) :
  length header <= length cells -> present (dict_reader_row header cells) k.
Proof.
  intros H. unfold present, get. rewrite (reader_row_fields_full header cells H).
  apply fold_set_text. intros k'. discriminate.
Qed.

Lemma reader_row_get (header cells : list string) (k : string) :
  In k header -> exists c, get (dict_reader_row header cells) k = Some c.
Proof.
  intros H. apply in_header_keys in H.
  rewrite <- (dkeys_reader_row header cells) in H.
  apply dict_get_in_dkeys in H. unfold get.
  destruct (dict_get (fields (dict_reader_row header cells)) k) as [c|];
    [exists c; reflexivity | exfalso; apply H; reflexivity].
Qed.

Lemma reader_row_get_none (header cells : list string) (k : string) :
  ~ In k header -> get (dict_reader_row header cells) k = None.
Proof.
  intros H. unfold get.
  destruct (dict_get (fields (dict_reader_row header cells)) k) eqn:E; [|reflexivity].
  exfalso. apply H. apply in_header_keys.
  rewrite <- (dkeys_reader_row header cells). apply dict_get_in_dkeys.
  rewrite E. discriminate.
Qed.

Lemma process_row_returns (survey_data : list Survey.t) (r : row) (name : cell) :
  get r "model_name" = Some name ->
  present r "ram(GB)" -> present r "processor_name" ->
  exists r', process_row survey_data r = Ok r'.
Proof.
  intros Hn Hr Hp.
  destruct (find_match survey_data (normalize_name name)) as [m|] eqn:Hm.
  - destruct (process_row_matched survey_data r name m Hn Hm Hr Hp)
      as [r3 [_ [[_ E] | [_ [i [_ [_ E]]]]]]]; eexists; exact E.
  - destruct (process_row_unmatched survey_data r name Hn Hm Hr Hp)
      as [r3 [i [_ [_ [_ E]]]]]. eexists. exact E.
Qed.

Lemma process_row_full_row (survey_data : list Survey.t) (header cells : list string) :
  In "model_name" header -> length header <= length cells ->
  exists r', process_row survey_data (dict_reader_row header cells) = Ok r'.
Proof.
  intros Hm Hl. destruct (reader_row_get header cells "model_name" Hm) as [name Hn].
  apply (process_row_returns survey_data _ name Hn);
    apply reader_row_present; exact Hl.
Qed.

(** The keys of a processed record: those read, and hardware and derived
    columns. *)
Lemma process_row_keys (survey_data : list Survey.t) (r r' : row) (k : string) :
  process_row survey_data r = Ok r' ->
  In k (dkeys (fields r')) ->
  In k (dkeys (fields r)) \/ In k hardware_columns \/ In k derived_columns.
Proof.
  intros H Hk.
  destruct (process_row_inv survey_data r r' H) as [name [r3 [_ [Hi Hm]]]].
  destruct (impute_inv r r3 Hi) as [[_ [_ [_ U]]] _].
  destruct (merge_fields_inv r3 r' _ Hm) as [[_ [_ [_ V]]] _].
  destruct (V k Hk) as [C | C]; [|auto].
  destruct (U k C) as [C' | C']; auto.
Qed.

(** ** The writing of the output *)

(** The header of the output: that of the catalog and the derived columns. *)
Definition extended (header : list string) : list string :=
  (header ++ derived_columns)%list.

(** The line of a record in the output: its cells under [fieldnames], the
    empty text for a [None] cell and for a column the record lacks. *)
Definition row_cells (fieldnames : list string) (r : row) : list string :=
  map (fun k => match get r k with Some (Some s) => s | _ => "" end) fieldnames.

Lemma dict_to_list_ok (fieldnames : list string) (r : row) :
  restkey r = None ->
  (forall k, In k (dkeys (fields r)) -> In k fieldnames) ->
  dict_to_list fieldnames r = Ok (row_cells fieldnames r).
Proof.
  intros Hr Hk. unfold dict_to_list, keys. rewrite Hr, app_nil_r.
  replace (existsb _ _) with false; [reflexivity|].
  symmetry. apply not_true_is_false. intros C.
  apply existsb_exists in C. destruct C as [key [Hin Hb]].
  apply in_map_iff in Hin. destruct Hin as [[k c] [<- Hin]]. cbn [fst] in Hb.
  apply negb_true_iff in Hb.
  assert (I : In k fieldnames)
    by (apply Hk; unfold dkeys; apply in_map_iff; exists (k, c); auto).
  apply mem_iff in I. congruence.
Qed.

Lemma dict_to_list_surplus (fieldnames : list string) (r : row) (l : list string) :
  restkey r = Some l -> dict_to_list fieldnames r = Raise ValueError.
Proof.
  intros Hr. unfold dict_to_list, keys. rewrite Hr.
  replace (existsb _ _) with true; [reflexivity|].
  symmetry. apply existsb_exists. exists None. split; [|reflexivity].
  apply in_or_app. right. left. reflexivity.
Qed.

Lemma dict_to_list_extra_key (fieldnames : list string) (r : row) (k : string) :
  In k (dkeys (fields r)) -> ~ In k fieldnames ->
  dict_to_list fieldnames r = Raise ValueError.
Proof.
  intros Hk Hn. unfold dict_to_list.
  replace (existsb _ _) with true; [reflexivity|].
  symmetry. apply existsb_exists. exists (Some k). split.
  - unfold keys. apply in_or_app. left. unfold dkeys in Hk.
    apply in_map_iff in Hk. destruct Hk as [kv [E Hk]].
    apply in_map_iff. exists kv. split; [rewrite E; reflexivity | exact Hk].
  - apply negb_true_iff. destruct (Py.mem k fieldnames) eqn:M; [|reflexivity].
    apply mem_iff in M. contradiction.
Qed.

Lemma writerows_stop (fieldnames : list string) (good : list row) (bad : row)
      (rest : list row) (written : list (list string)) :
  Forall (fun r => dict_to_list fieldnames r = Ok (row_cells fieldnames r)) good ->
  dict_to_list fieldnames bad = Raise ValueError ->
  writerows fieldnames (good ++ bad :: rest) written =
  ((written ++ map (row_cells fieldnames) good)%list, Raise ValueError).
Proof.
  intros Hg Hb. revert written.
  induction Hg as [|r good Hr _ IH]; intros written; simpl.
  - rewrite Hb, app_nil_r. reflexivity.
  - rewrite Hr, IH, <- app_assoc. reflexivity.
Qed.

Lemma writerows_all (fieldnames : list string) (rows : list row)
      (written : list (list string)) :
  Forall (fun r => dict_to_list fieldnames r = Ok (row_cells fieldnames r)) rows ->
  writerows fieldnames rows written =
  ((written ++ map (row_cells fieldnames) rows)%list, Ok tt).
Proof.
  intros H. revert written.
  induction H as [|r rows Hr _ IH]; intros written; simpl.
  - rewrite app_nil_r. reflexivity.
  - rewrite Hr, IH, <- app_assoc. reflexivity.
Qed.

(** What [main] does once both files are read and the records merged. *)
Lemma main_writes (fs : filesystem) (survey_lines : list (list string))
      (header : list string) (body : list (list string))
      (survey_data : list Survey.t) (merged : list row) :
  fs survey_file = Some (Readable survey_lines) ->
  fs laptop_file = Some (Readable (header :: body)) ->
  read_survey fs = Ok survey_data ->
  mapM (process_row survey_data) (dict_reader (header :: body)) = Ok merged ->
  main fs =
  let '(written, res) := writerows (extended header) merged [extended header] in
  match res with
  | Ok _ => mkRun (Ok tt) ["Successfully merged data to " ++ output_file]
                  (write_file fs output_file written)
  | Raise e => mkRun (Raise e) [] (write_file fs output_file written)
  end.
Proof.
  intros Hs Hl Hr Hm. unfold main, path_exists. rewrite Hl, Hs. cbn [negb].
  rewrite Hr. unfold read_and_merge, read_file. rewrite Hl. cbn [bind fieldnames_of].
  rewrite Hm. cbn [bind]. reflexivity.
Qed.

Lemma forall2_map_l {A B C : Type} (g : A -> B) (P : B -> C -> Prop)
      (l : list A) (l' : list C) :
  Forall2 P (map g l) l' -> Forall2 (fun a c => P (g a) c) l l'.
Proof.
  revert l'. induction l as [|a l IH]; intros l' H; inversion H; subst;
    constructor; auto.
Qed.

(** A catalog whose records have no [None] cell is merged to the end. *)
Lemma merge_full_catalog (survey_data : list Survey.t) (header : list string)
      (data : list (list string)) :
  In "model_name" header ->
  (forall cells, In cells data -> length header <= length cells) ->
  exists merged,
    mapM (process_row survey_data) (map (dict_reader_row header) data) = Ok merged /\
    Forall2 (fun cells r' =>
               process_row survey_data (dict_reader_row header cells) = Ok r')
            data merged.
Proof.
  intros Hm Hl.
  destruct (mapM_total (process_row survey_data) (map (dict_reader_row header) data))
    as [merged [E [_ F]]].
  - intros r Hr. apply in_map_iff in Hr. destruct Hr as [cells [<- Hc]].
    apply process_row_full_row; [exact Hm | apply Hl; exact Hc].
  - exists merged. split; [exact E|].
    exact (forall2_map_l (dict_reader_row header)
             (fun a b => process_row survey_data a = Ok b) data merged F).
Qed.

Lemma process_row_restkey (survey_data : list Survey.t) (r r' : row) :
  process_row survey_data r = Ok r' -> restkey r' = restkey r.
Proof.
  intros H.
  destruct (process_row_inv survey_data r r' H) as [name [r3 [_ [Hi Hm]]]].
  destruct (impute_inv r r3 Hi) as [[U _] _].
  destruct (merge_fields_inv r3 r' _ Hm) as [[V _] _]. congruence.
Qed.

Lemma process_row_hardware_key (survey_data : list Survey.t) (r r' : row) (k : string) :
  process_row survey_data r = Ok r' -> In k hardware_columns ->
  In k (dkeys (fields r')).
Proof.
  intros H Hk.
  destruct (process_row_inv survey_data r r' H) as [name [r3 [_ [Hi Hm]]]].
  destruct (impute_inv r r3 Hi) as [_ [F1 [F2 F3]]].
  destruct (merge_fields_inv r3 r' _ Hm) as [[_ [_ [V _]]] _].
  apply V. apply dict_get_in_dkeys. fold (get r3 k).
  destruct Hk as [<- | [<- | [<- | []]]];
    [destruct F1 as [s [E _]] | destruct F2 as [s [E _]] | destruct F3 as [s [E _]]];
    rewrite E; discriminate.
Qed.

(** A processed record with no surplus cell, from a catalog that has the
    hardware columns, is accepted by the writer. *)
Lemma processed_row_written (survey_data : list Survey.t) (header cells : list string)
      (r' : row) :
  (forall k, In k hardware_columns -> In k header) ->
  length cells <= length header ->
  process_row survey_data (dict_reader_row header cells) = Ok r' ->
  dict_to_list (extended header) r' = Ok (row_cells (extended header) r').
Proof.
  intros Hh Hl H. apply dict_to_list_ok.
  - rewrite (process_row_restkey _ _ _ H), restkey_reader_row.
    replace (Nat.ltb (length header) (length cells)) with false
      by (symmetry; apply Nat.ltb_ge; exact Hl).
    reflexivity.
  - intros k Hk. unfold extended. apply in_or_app.
    destruct (process_row_keys _ _ _ k H Hk) as [C | [C | C]].
    + left. rewrite dkeys_reader_row in C. apply in_header_keys. exact C.
    + left. apply Hh. exact C.
    + right. exact C.
Qed.

Lemma processed_row_surplus (survey_data : list Survey.t) (header cells : list string)
      (r' : row) :
  length header < length cells ->
  process_row survey_data (dict_reader_row header cells) = Ok r' ->
  dict_to_list (extended header) r' = Raise ValueError.
Proof.
  intros Hl H. apply (dict_to_list_surplus _ _ (skipn (length header) cells)).
  rewrite (process_row_restkey _ _ _ H), restkey_reader_row.
  replace (Nat.ltb (length header) (length cells)) with true
    by (symmetry; apply Nat.ltb_lt; exact Hl).
  reflexivity.
Qed.

Lemma forall2_written (survey_data : list Survey.t) (header : list string)
      (data : list (list string)) (merged : list row) :
  (forall k, In k hardware_columns -> In k header) ->
  (forall cells, In cells data -> length cells <= length header) ->
  Forall2 (fun cells r' =>
             process_row survey_data (dict_reader_row header cells) = Ok r')
          data merged ->
  Forall (fun r => dict_to_list (extended header) r
                   = Ok (row_cells (extended header) r)) merged.
Proof.
  intros Hh Hl F. induction F as [|cells r' data merged H _ IH]; constructor.
  - apply (processed_row_written survey_data header cells r' Hh);
      [apply Hl; left; reflexivity | exact H].
  - apply IH. intros c Hc. apply Hl. right. exact Hc.
Qed.

(** With a well-formed survey and a catalog that has the model_name column
    and the three hardware columns, and whose records have as many cells as
    the header, the run ends normally: it prints the success line and
    writes the header of the catalog followed by Major, Activities and
    ProgramList, and then one line per record, in the order of the catalog,
    with the cells of the processed record. *)
Theorem main_succeeds_on_rectangular_input :
  forall (fs : filesystem) (survey_lines : list (list string))
         (header : list string) (body : list (list string)),
    fs survey_file = Some (Readable survey_lines) ->
    survey_well_formed survey_lines ->
    fs laptop_file = Some (Readable (header :: body)) ->
    In "model_name" header ->
    (forall k, In k hardware_columns -> In k header) ->
    (forall cells, In cells (data_lines body) -> length cells = length header) ->
    exists survey_data merged,
      read_survey fs = Ok survey_data /\
      Forall2 (fun cells r' =>
                 process_row survey_data (dict_reader_row header cells) = Ok r')
              (data_lines body) merged /\
      main fs =
        mkRun (Ok tt) ["Successfully merged data to " ++ output_file]
              (write_file fs output_file
                 (extended header :: map (row_cells (extended header)) merged)).
Proof.
  intros fs survey_lines header body Hs Hw Hl Hm Hh Hrect.
  destruct (read_survey_well_formed fs survey_lines Hs Hw) as [sd Hsd].
  destruct (merge_full_catalog sd header (data_lines body) Hm) as [merged [E F]].
  { intros cells Hc. rewrite (Hrect cells Hc). apply Nat.le_refl. }
  exists sd, merged. split; [exact Hsd|]. split; [exact F|].
  rewrite (main_writes fs survey_lines header body sd merged Hs Hl Hsd E).
  rewrite writerows_all; [reflexivity|].
  apply (forall2_written sd header (data_lines body) merged Hh); [|exact F].
  intros cells Hc. rewrite (Hrect cells Hc). apply Nat.le_refl.
Qed.

(** The output is not written all or nothing.  With a well-formed survey
    and a catalog that has the model_name and hardware columns and no
    record shorter than the header, the first record that is longer than
    the header makes the writer raise a [ValueError]: the run ends in it,
    and the output file is left with the header and the lines of the
    records before that one. *)
Theorem surplus_cells_leave_partial_output :
  forall (fs : filesystem) (survey_lines : list (list string))
         (header : list string) (body : list (list string))
         (good : list (list string)) (bad : list string) (rest : list (list string)),
    fs survey_file = Some (Readable survey_lines) ->
    survey_well_formed survey_lines ->
    fs laptop_file = Some (Readable (header :: body)) ->
    In "model_name" header ->
    (forall k, In k hardware_columns -> In k header) ->
    data_lines body = (good ++ bad :: rest)%list ->
    (forall cells, In cells good -> length cells = length header) ->
    length header < length bad ->
    (forall cells, In cells rest -> length header <= length cells) ->
    exists survey_data merged,
      read_survey fs = Ok survey_data /\
      Forall2 (fun cells r' =>
                 process_row survey_data (dict_reader_row header cells) = Ok r')
              good merged /\
      main fs =
        mkRun (Raise ValueError) []
              (write_file fs output_file
                 (extended header :: map (row_cells (extended header)) merged)).
Proof.
  intros fs survey_lines header body good bad rest Hs Hw Hl Hm Hh Hd Hg Hb Hr.
  destruct (read_survey_well_formed fs survey_lines Hs Hw) as [sd Hsd].
  destruct (merge_full_catalog sd header (data_lines body) Hm) as [merged [E F]].
  { rewrite Hd. intros cells Hc. apply in_app_or in Hc.
    destruct Hc as [Hc | [<- | Hc]];
      [rewrite (Hg cells Hc); apply Nat.le_refl | lia | apply Hr; exact Hc]. }
  rewrite Hd in F. apply Forall2_app_inv_l in F.
  destruct F as [mg [mt [Fg [Ft ->]]]].
  inversion Ft as [|? mb ? mr Hbad Frest]; subst.
  exists sd, mg. split; [exact Hsd|]. split; [exact Fg|].
  rewrite (main_writes fs survey_lines header body sd _ Hs Hl Hsd E).
  rewrite writerows_stop; [reflexivity | |].
  - apply (forall2_written sd header good mg Hh); [|exact Fg].
    intros cells Hc. rewrite (Hg cells Hc). apply Nat.le_refl.
  - apply (processed_row_surplus sd header bad mb Hb Hbad).
Qed.

(** A catalog without one of the hardware columns cannot be written: the
    imputer adds the column to every record, the writer finds a key that is
    not in its field names, and the run ends in a [ValueError] at the first
    record, with only the header in the output file.  (Well-formed survey,
    catalog with a model_name column, at least one record and none shorter
    than the header.) *)
Theorem missing_hardware_column_fails_at_writer :
  forall (fs : filesystem) (survey_lines : list (list string))
         (header : list string) (body : list (list string))
         (cells : list string) (more : list (list string)) (k : string),
    fs survey_file = Some (Readable survey_lines) ->
    survey_well_formed survey_lines ->
    fs laptop_file = Some (Readable (header :: body)) ->
    In "model_name" header ->
    In k hardware_columns -> ~ In k header ->
    data_lines body = cells :: more ->
    (forall c, In c (data_lines body) -> length header <= length c) ->
    main fs = mkRun (Raise ValueError) []
                    (write_file fs output_file [extended header]).
Proof.
  intros fs survey_lines header body cells more k Hs Hw Hl Hm Hk Hn Hd Hfull.
  destruct (read_survey_well_formed fs survey_lines Hs Hw) as [sd Hsd].
  destruct (merge_full_catalog sd header (data_lines body) Hm Hfull) as [merged [E F]].
  rewrite Hd in F. inversion F as [|? r' ? mr Hfirst Frest]; subst.
  rewrite (main_writes fs survey_lines header body sd _ Hs Hl Hsd E).
  assert (B : dict_to_list (extended header) r' = Raise ValueError);
    [|pose proof (writerows_stop (extended header) [] r' mr [extended header]
                    (Forall_nil _) B) as W;
      cbn [app map] in W; rewrite W; reflexivity].
  apply (dict_to_list_extra_key _ _ k).
  - apply (process_row_hardware_key sd _ r' k Hfirst Hk).
  - unfold extended. intros C. apply in_app_or in C. destruct C as [C | C].
    + exact (Hn C).
    + destruct Hk as [<- | [<- | [<- | []]]];
        destruct C as [C | [C | [C | []]]]; discriminate C.
Qed.

(** A catalog without the model_name column: the first record ends the run
    in a [KeyError], before anything is written. *)
Theorem missing_model_name_column_raises :
  forall (fs : filesystem) (survey_lines : list (list string))
         (header : list string) (body : list (list string))
         (cells : list string) (more : list (list string)),
    fs survey_file = Some (Readable survey_lines) ->
    survey_well_formed survey_lines ->
    fs laptop_file = Some (Readable (header :: body)) ->
    ~ In "model_name" header ->
    data_lines body = cells :: more ->
    main fs = mkRun (Raise (KeyError (Some "model_name"))) [] fs.
Proof.
  intros fs survey_lines header body cells more Hs Hw Hl Hn Hd.
  destruct (read_survey_well_formed fs survey_lines Hs Hw) as [sd Hsd].
  unfold main, path_exists. rewrite Hl, Hs. cbn [negb]. rewrite Hsd.
  unfold read_and_merge, read_file. rewrite Hl. cbn [bind fieldnames_of].
  unfold dict_reader. rewrite Hd. cbn [map mapM].
  unfold process_row, model_name.
  rewrite (reader_row_get_none header cells "model_name" Hn). reflexivity.
Qed.

(** An empty catalog file (not even a header): the run ends in a
    [TypeError], the header [None] of the reader added to a list, before
    anything is written. *)
Theorem empty_catalog_raises :
  forall (fs : filesystem) (survey_lines : list (list string)),
    fs survey_file = Some (Readable survey_lines) ->
    survey_well_formed survey_lines ->
    fs laptop_file = Some (Readable []) ->
    main fs = mkRun (Raise TypeError) [] fs.
Proof.
  intros fs survey_lines Hs Hw Hl.
  destruct (read_survey_well_formed fs survey_lines Hs Hw) as [sd Hsd].
  unfold main, path_exists. rewrite Hl, Hs. cbn [negb]. rewrite Hsd.
  unfold read_and_merge, read_file. rewrite Hl. reflexivity.
Qed.

(** A survey of one answer, and the header of a full catalog. *)
Definition one_answer : list (list string) :=
  [survey_header;
   ["1 May"; "Software Engineering"; "MacBook Pro"; "Programming"; "Xcode"]].

Definition catalog_header : list string :=
  ["model_name"; "ram(GB)"; "processor_name"; "graphics";
   "screen_size(inches)"; "resolution (pixels)"].

Lemma one_answer_well_formed : survey_well_formed one_answer.
Proof.
  split; [intros cells [<- | []]; simpl; lia|].
  split; [|split; [|split]].
  - exists "What is the laptop model you primarily use for your studies?(You can find your pc model in your system settings)".
    split; [simpl; tauto | reflexivity].
  - exists "What is your major?". split; [simpl; tauto | reflexivity].
  - exists "Which activities do you use your laptop for?".
    split; [simpl; tauto | reflexivity].
  - exists "If you use specialized software, please list them".
    split; [simpl; tauto | reflexivity].
Qed.

Lemma catalog_header_hardware (k : string) :
  In k hardware_columns -> In k catalog_header.
Proof. intros [<- | [<- | [<- | []]]]; simpl; tauto. Qed.

Lemma main_succeeds_on_rectangular_input_witness :
  exists merged,
    main (dataset [catalog_header;
                   ["MacBook Pro 14"; "16"; "Apple M1"; ""; "14"; "NULL"];
                   [];
                   ["Aspire 5"; "4"; "Intel Core i3"; "Intel UHD"; "15.6"; "1920 x 1080"]]
                  one_answer)
    = mkRun (Ok tt) ["Successfully merged data to " ++ output_file]
        (write_file
           (dataset [catalog_header;
                     ["MacBook Pro 14"; "16"; "Apple M1"; ""; "14"; "NULL"];
                     [];
                     ["Aspire 5"; "4"; "Intel Core i3"; "Intel UHD"; "15.6"; "1920 x 1080"]]
                    one_answer)
           output_file
           (extended catalog_header :: map (row_cells (extended catalog_header)) merged)) /\
    length merged = 2.
Proof.
  destruct (main_succeeds_on_rectangular_input
              (dataset [catalog_header;
                        ["MacBook Pro 14"; "16"; "Apple M1"; ""; "14"; "NULL"];
                        [];
                        ["Aspire 5"; "4"; "Intel Core i3"; "Intel UHD"; "15.6"; "1920 x 1080"]]
                       one_answer)
              one_answer catalog_header
              [["MacBook Pro 14"; "16"; "Apple M1"; ""; "14"; "NULL"];
               [];
               ["Aspire 5"; "4"; "Intel Core i3"; "Intel UHD"; "15.6"; "1920 x 1080"]])
    as [sd [merged [_ [F E]]]].
  - reflexivity.
  - exact one_answer_well_formed.
  - reflexivity.
  - simpl. tauto.
  - exact catalog_header_hardware.
  - intros cells [<- | [<- | []]]; reflexivity.
  - exists merged. split; [exact E|].
    apply Forall2_length in F. rewrite <- F. reflexivity.
Defined.

Lemma surplus_cells_leave_partial_output_witness :
  exists merged,
    main (dataset [catalog_header;
                   ["Swift 3"; "4"; "Intel Core i3"; "Intel UHD"; "14"; "1920 x 1080"];
                   ["Aspire 5"; "8"; "Intel Core i5"; "Intel UHD"; "15.6"; "1920 x 1080"; "touch"];
                   ["Legion 5"; "16"; "AMD Ryzen 7"; "RTX 3060"; "15.6"; "1920 x 1080"]]
                  one_answer)
    = mkRun (Raise ValueError) []
        (write_file
           (dataset [catalog_header;
                     ["Swift 3"; "4"; "Intel Core i3"; "Intel UHD"; "14"; "1920 x 1080"];
                     ["Aspire 5"; "8"; "Intel Core i5"; "Intel UHD"; "15.6"; "1920 x 1080"; "touch"];
                     ["Legion 5"; "16"; "AMD Ryzen 7"; "RTX 3060"; "15.6"; "1920 x 1080"]]
                    one_answer)
           output_file
           (extended catalog_header :: map (row_cells (extended catalog_header)) merged)) /\
    length merged = 1.
Proof.
  destruct (surplus_cells_leave_partial_output
              (dataset [catalog_header;
                        ["Swift 3"; "4"; "Intel Core i3"; "Intel UHD"; "14"; "1920 x 1080"];
                        ["Aspire 5"; "8"; "Intel Core i5"; "Intel UHD"; "15.6"; "1920 x 1080"; "touch"];
                        ["Legion 5"; "16"; "AMD Ryzen 7"; "RTX 3060"; "15.6"; "1920 x 1080"]]
                       one_answer)
              one_answer catalog_header
              [["Swift 3"; "4"; "Intel Core i3"; "Intel UHD"; "14"; "1920 x 1080"];
               ["Aspire 5"; "8"; "Intel Core i5"; "Intel UHD"; "15.6"; "1920 x 1080"; "touch"];
               ["Legion 5"; "16"; "AMD Ryzen 7"; "RTX 3060"; "15.6"; "1920 x 1080"]]
              [["Swift 3"; "4"; "Intel Core i3"; "Intel UHD"; "14"; "1920 x 1080"]]
              ["Aspire 5"; "8"; "Intel Core i5"; "Intel UHD"; "15.6"; "1920 x 1080"; "touch"]
              [["Legion 5"; "16"; "AMD Ryzen 7"; "RTX 3060"; "15.6"; "1920 x 1080"]])
    as [sd [merged [_ [F E]]]].
  - reflexivity.
  - exact one_answer_well_formed.
  - reflexivity.
  - simpl. tauto.
  - exact catalog_header_hardware.
  - reflexivity.
  - intros cells [<- | []]; reflexivity.
  - simpl. lia.
  - intros cells [<- | []]; simpl; lia.
  - exists merged. split; [exact E|].
    apply Forall2_length in F. rewrite <- F. reflexivity.
Defined.

Lemma missing_hardware_column_fails_at_writer_witness :
  main (dataset [["model_name"; "ram(GB)"; "processor_name"; "graphics"];
                 ["Legion 5"; "16"; "AMD Ryzen 7"; "RTX 3060"]]
                one_answer)
  = mkRun (Raise ValueError) []
      (write_file
         (dataset [["model_name"; "ram(GB)"; "processor_name"; "graphics"];
                   ["Legion 5"; "16"; "AMD Ryzen 7"; "RTX 3060"]]
                  one_answer)
         output_file
         [extended ["model_name"; "ram(GB)"; "processor_name"; "graphics"]]).
Proof.
  apply (missing_hardware_column_fails_at_writer
           (dataset [["model_name"; "ram(GB)"; "processor_name"; "graphics"];
                     ["Legion 5"; "16"; "AMD Ryzen 7"; "RTX 3060"]]
                    one_answer)
           one_answer
           ["model_name"; "ram(GB)"; "processor_name"; "graphics"]
           [["Legion 5"; "16"; "AMD Ryzen 7"; "RTX 3060"]]
           ["Legion 5"; "16"; "AMD Ryzen 7"; "RTX 3060"] []
           "screen_size(inches)").
  - reflexivity.
  - exact one_answer_well_formed.
  - reflexivity.
  - simpl. tauto.
  - simpl. tauto.
  - intros [C | [C | [C | [C | []]]]]; discriminate C.
  - reflexivity.
  - intros c [<- | []]. simpl. lia.
Defined.

Lemma missing_model_name_column_raises_witness :
  main (dataset [["Model"; "ram(GB)"]; ["Legion 5"; "16"]] one_answer)
  = mkRun (Raise (KeyError (Some "model_name"))) []
          (dataset [["Model"; "ram(GB)"]; ["Legion 5"; "16"]] one_answer).
Proof.
  apply (missing_model_name_column_raises
           (dataset [["Model"; "ram(GB)"]; ["Legion 5"; "16"]] one_answer)
           one_answer ["Model"; "ram(GB)"] [["Legion 5"; "16"]]
           ["Legion 5"; "16"] []).
  - reflexivity.
  - exact one_answer_well_formed.
  - reflexivity.
  - intros [C | [C | []]]; discriminate C.
  - reflexivity.
Defined.

Lemma empty_catalog_raises_witness :
  main (dataset [] one_answer) = mkRun (Raise TypeError) [] (dataset [] one_answer).
Proof.
  apply (empty_catalog_raises (dataset [] one_answer) one_answer).
  - reflexivity.
  - exact one_answer_well_formed.
  - reflexivity.
Defined.

Lemma main_aborts_on_surplus_survey_cells_witness :
  main (dataset [catalog_header]
                [survey_header;
                 ["1 May"; "Software Engineering"; "MacBook Pro"; "Programming";
                  "Xcode"; "thanks"]])
  = mkRun (Raise AttributeError) []
          (dataset [catalog_header]
                   [survey_header;
                    ["1 May"; "Software Engineering"; "MacBook Pro"; "Programming";
                     "Xcode"; "thanks"]]).
Proof.
  apply (main_aborts_on_surplus_survey_cells
           (dataset [catalog_header]
                    [survey_header;
                     ["1 May"; "Software Engineering"; "MacBook Pro"; "Programming";
                      "Xcode"; "thanks"]])
           (Readable [catalog_header]) survey_header
           [["1 May"; "Software Engineering"; "MacBook Pro"; "Programming";
             "Xcode"; "thanks"]]
           ["1 May"; "Software Engineering"; "MacBook Pro"; "Programming";
            "Xcode"; "thanks"] []).
  - reflexivity.
  - reflexivity.
  - reflexivity.
  - simpl. lia.
Defined.

(** ** What the run leaves untouched *)

Lemma writerows_extends (fieldnames : list string) (rows : list row)
      (written : list (list string)) :
  exists more, fst (writerows fieldnames rows written) = (written ++ more)%list.
Proof.
  revert written. induction rows as [|r rows IH]; intros written; simpl.
  - exists []. rewrite app_nil_r. reflexivity.
  - destruct (dict_to_list fieldnames r) as [cells|e].
    + destruct (IH (written ++ [cells])%list) as [more E].
      exists (cells :: more). rewrite E, <- app_assoc. reflexivity.
    + exists []. rewrite app_nil_r. reflexivity.
Qed.

Lemma read_and_merge_fieldnames (fs : filesystem) (survey_data : list Survey.t)
      (fieldnames : list string) (merged : list row) :
  read_and_merge fs survey_data = Ok (fieldnames, merged) ->
  exists header body,
    fs laptop_file = Some (Readable (header :: body)) /\
    fieldnames = extended header.
Proof.
  unfold read_and_merge, read_file.
  destruct (fs laptop_file) as [[msg|[|header body]]|]; try discriminate.
  cbn [bind fieldnames_of].
  destruct (mapM (process_row survey_data) (dict_reader (header :: body)));
    [|discriminate].
  cbn [bind]. intros H. injection H as <- _. exists header, body. auto.
Qed.

(** Whatever the files are, a run changes no file but the output file, and
    prints nothing when it ends in an error.  It leaves the output file as
    it was, or writes it with a first line that is the header of the
    catalog followed by Major, Activities and ProgramList. *)
Theorem main_changes_output_file_only :
  forall fs : filesystem,
    (forall path, path <> output_file -> files (main fs) path = fs path) /\
    (forall e, outcome (main fs) = Raise e -> stdout (main fs) = []) /\
    (files (main fs) = fs \/
     exists header body written,
       fs laptop_file = Some (Readable (header :: body)) /\
       files (main fs) = write_file fs output_file (extended header :: written)).
Proof.
  intros fs. unfold main.
  destruct (negb (path_exists fs laptop_file));
    [split; [reflexivity | split; [discriminate | left; reflexivity]]|].
  destruct (negb (path_exists fs survey_file));
    [split; [reflexivity | split; [discriminate | left; reflexivity]]|].
  destruct (read_survey fs) as [sd|e];
    [|split; [reflexivity | split; [reflexivity | left; reflexivity]]].
  destruct (read_and_merge fs sd) as [[fieldnames merged]|e] eqn:E;
    [|split; [reflexivity | split; [reflexivity | left; reflexivity]]].
  destruct (read_and_merge_fieldnames fs sd fieldnames merged E)
    as [header [body [Hl ->]]].
  destruct (writerows_extends (extended header) merged [extended header])
    as [more W].
  destruct (writerows (extended header) merged [extended header])
    as [written res]. cbn [fst] in W. subst written.
  assert (P : forall path, path <> output_file ->
                write_file fs output_file ([extended header] ++ more) path = fs path).
  { intros path Hp. unfold write_file.
    destruct (String.eqb path output_file) eqn:Q; [|reflexivity].
    apply String.eqb_eq in Q. contradiction. }
  destruct res as [u|e]; cbn [files outcome stdout].
  - split; [exact P|]. split; [discriminate|].
    right. exists header, body, more. split; [exact Hl | reflexivity].
  - split; [exact P|]. split; [reflexivity|].
    right. exists header, body, more. split; [exact Hl | reflexivity].
Qed.

(** ** Names as they are typed *)

Lemma normalize_name_text (s : string) :
  normalize_name (Some s) = Py.lower (Py.str_filter Py.is_alnum s).
Proof.
  destruct s as [|c s]; [reflexivity|].
  unfold normalize_name, re_sub_non_alnum. cbn [Py.nonempty].
  apply filter_alnum_lower.
Qed.

Lemma str_filter_append (p : ascii -> bool) (a b : string) :
  Py.str_filter p (a ++ b) = Py.str_filter p a ++ Py.str_filter p b.
Proof.
  induction a as [|c a IH]; simpl; [reflexivity|].
  destruct (p c); simpl; rewrite IH; reflexivity.
Qed.

Lemma lower_append (a b : string) : Py.lower (a ++ b) = Py.lower a ++ Py.lower b.
Proof.
  unfold Py.lower. induction a as [|c a IH]; simpl; [reflexivity|].
  rewrite IH. reflexivity.
Qed.

Lemma lower_char_idempotent (c : ascii) :
  Py.lower_char (Py.lower_char c) = Py.lower_char c.
Proof. destruct c as [[] [] [] [] [] [] [] []]; reflexivity. Qed.

Lemma lower_idempotent (s : string) : Py.lower (Py.lower s) = Py.lower s.
Proof.
  unfold Py.lower. induction s as [|c s IH]; simpl; [reflexivity|].
  rewrite lower_char_idempotent, IH. reflexivity.
Qed.

(** [normalize_name] works character by character and does not see the
    case: the key of two texts put together is their two keys put together,
    and a text and its lowered form have the same key. *)
Theorem normalize_name_append_lower :
  forall a b : string,
    normalize_name (Some (a ++ b)) = normalize_name (Some a) ++ normalize_name (Some b) /\
    normalize_name (Some (Py.lower a)) = normalize_name (Some a).
Proof.
  intros a b. rewrite !normalize_name_text. split.
  - rewrite str_filter_append, lower_append. reflexivity.
  - rewrite <- filter_alnum_lower, <- (filter_alnum_lower a), lower_idempotent.
    reflexivity.
Qed.

(** When one of the two names, as typed, is a part of the other, the survey
    entry matches the catalog record, unless the key of the entry is empty:
    an entry for [s] matches a catalog name [pre ++ s ++ post], and an entry
    for [pre ++ s ++ post] matches a catalog name [s]. *)
Theorem typed_containment_matches :
  forall (pre s post : string) (major activities program_list : cell),
    (normalize_name (Some s) <> "" ->
     matches (normalize_name (Some (pre ++ s ++ post)))
             (Survey.Build (normalize_name (Some s)) major activities program_list)
     = true) /\
    (normalize_name (Some (pre ++ s ++ post)) <> "" ->
     matches (normalize_name (Some s))
             (Survey.Build (normalize_name (Some (pre ++ s ++ post)))
                           major activities program_list)
     = true).
Proof.
  intros pre s post major activities program_list.
  assert (S : substring (normalize_name (Some s))
                        (normalize_name (Some (pre ++ s ++ post)))).
  { exists (normalize_name (Some pre)), (normalize_name (Some post)).
    rewrite !normalize_name_text, !str_filter_append, !lower_append. reflexivity. }
  split; intros H; apply matches_iff; (split; [exact H|]); cbn [Survey.model_normalized].
  - left. exact S.
  - right. exact S.
Qed.

Lemma typed_containment_matches_witness :
  matches (normalize_name (Some ("" ++ "MacBook Pro" ++ " 14")))
          (Survey.Build (normalize_name (Some "MacBook Pro")) None None None)
  = true.
Proof.
  apply (proj1 (typed_containment_matches "" "MacBook Pro" " 14" None None None)).
  discriminate.
Defined.

(** ** Imputed graphics and the classifier *)

Lemma impute_graphics_literal (r r1 : row) :
  impute_graphics r = Ok r1 -> needs_default r "graphics" = true ->
  exists g, get r1 "graphics" = Some (Some g) /\
            has_gpu_keyword (Py.lower g) = false.
Proof.
  unfold impute_graphics. intros H E. rewrite E in H.
  destruct (get_lower r "processor_name") as [proc|e]; [|discriminate H].
  cbn [bind] in H.
  destruct (Py.contains "intel" proc);
    [|destruct (Py.contains "amd" proc || Py.contains "ryzen" proc)];
    injection H as <-; eexists; (split; [get_set; reflexivity | reflexivity]).
Qed.

(** The tier by the RAM alone. *)
Definition tier_by_ram (ram : Z) : tier :=
  if (16 <=? ram)%Z then High else if (8 <=? ram)%Z then Mid else Low.

(** A record without a survey match whose graphics had to be imputed is
    classified by its RAM alone: none of the imputed graphics texts has a
    keyword of the classifier, so the three derived fields are the bundle
    of High from 16 GB, of Mid from 8 GB, and of Low below.  (The record
    has a model_name column, and its ram(GB) and processor_name cells are
    not absent.) *)
Theorem imputed_graphics_classified_by_ram :
  forall (survey_data : list Survey.t) (r : row) (name : cell),
    get r "model_name" = Some name ->
    find_match survey_data (normalize_name name) = None ->
    to_impute r "graphics" ->
    present r "ram(GB)" -> present r "processor_name" ->
    exists r',
      process_row survey_data r = Ok r' /\
      get r' "Major" =
        Some (Some (Inferred.Major (bundle_of (tier_by_ram (ram_value r))))) /\
      get r' "Activities" =
        Some (Some (Inferred.Activities (bundle_of (tier_by_ram (ram_value r))))) /\
      get r' "ProgramList" =
        Some (Some (Inferred.ProgramList (bundle_of (tier_by_ram (ram_value r))))).
Proof.
  intros survey_data r name Hn Hm Hg Hr Hp.
  destruct (process_row_unmatched survey_data r name Hn Hm Hr Hp)
    as [r3 [inferred [Hi [Hc [_ E]]]]].
  exists (infer_fields r3 inferred). split; [exact E|].
  assert (B : inferred = bundle_of (tier_by_ram (ram_value r))).
  { destruct (impute_inv r r3 Hi) as [[_ [U _]] _].
    assert (Eram : get r3 "ram(GB)" = get r "ram(GB)")
      by (apply U; intros [C | [C | [C | []]]]; discriminate C).
    assert (Eproc : get r3 "processor_name" = get r "processor_name")
      by (apply U; intros [C | [C | [C | []]]]; discriminate C).
    unfold impute in Hi.
    destruct (impute_graphics r) as [r1|e] eqn:E1; [|discriminate Hi].
    cbn [bind] in Hi. injection Hi as Hi.
    apply needs_default_iff in Hg.
    destruct (impute_graphics_literal r r1 E1 Hg) as [g [G K]].
    assert (Eg : get r3 "graphics" = Some (Some g)).
    { rewrite <- Hi, !impute_default_frame by discriminate. exact G. }
    unfold get_inferred_data, ram_of, get_lower in Hc.
    rewrite Eram, Eproc, Eg in Hc.
    fold (ram_of r) in Hc. rewrite (ram_of_value r Hr) in Hc. cbn [bind] in Hc.
    unfold present in Hp.
    destruct (get r "processor_name") as [[p|]|];
      [| exfalso; apply Hp; reflexivity |];
      cbn [bind] in Hc; rewrite K in Hc; injection Hc as <-;
      unfold tier_by_ram;
      destruct (16 <=? ram_value r)%Z; destruct (8 <=? ram_value r)%Z; reflexivity. }
  rewrite B. unfold infer_fields. get_set. repeat split.
Qed.

Lemma imputed_graphics_classified_by_ram_witness :
  exists r',
    process_row [] (catalog_row "Swift 3" "8" "AMD Ryzen 5" "Missing") = Ok r' /\
    get r' "Major" = Some (Some "Software Engineering").
Proof.
  destruct (imputed_graphics_classified_by_ram
              [] (catalog_row "Swift 3" "8" "AMD Ryzen 5" "Missing") (Some "Swift 3"))
    as [r' [E [M _]]].
  - reflexivity.
  - reflexivity.
  - right. right. exists "Missing". split; [reflexivity | simpl; tauto].
  - discriminate.
  - discriminate.
  - exists r'. split; [exact E | exact M].
Defined.
